(** * SolApp backend: wallet and token routes over a Solana RPC client

    A shallow embedding of [Backend/app/models/__init__.py],
    [Backend/app/api/tokens.py] and [Backend/app/api/wallets.py].

    The route handlers are Python coroutines that read and write one
    module-level dictionary ([wallets]) and talk to one module-level RPC
    [client].  They are embedded as computations in a state-and-exception
    monad: the state holds the wallet dictionary, the remote ledger behind
    the RPC client and the log of calls made to it; an exception is a value
    of [Exn].  Dictionaries are association lists in insertion order, as
    Python dictionaries are; floats are IEEE binary64 ([PrimFloat]). *)

From Stdlib Require Import ZArith List Bool Lia.
From Stdlib Require Import Strings.String Strings.Ascii Strings.Byte.
From Stdlib Require Import Sorting.Sorted Sorting.Permutation Classes.RelationClasses.
From Stdlib Require Import Floats.PrimFloat Floats.SpecFloat Floats.FloatOps.
Import ListNotations.

Set Warnings "-register-all".
Local Open Scope string_scope.
Local Open Scope Z_scope.

(* ================================================================== *)
(** ** Python values the handlers manipulate *)

(** Exceptions.  [detail] of an [HTTPException] is either a literal, or
    [str(e)] of a caught exception, or an f-string ending in [str(e)]; the
    text that [str] yields belongs to the libraries and is kept symbolic. *)
Inductive Exn : Type :=
| HTTPException (status_code : Z) (detail : Detail)
| ValidationError (model : string) (missing : list string)
| KeyError (key : string)
| TypeError (what : string)
| IndexError
| ValueError (what : string)
| ClientError (what : string)
with Detail : Type :=
| Lit (text : string)
| Str (e : Exn)
| Fmt (prefix : string) (e : Exn).

Inductive Res (A : Type) : Type :=
| Ok (a : A)
| Raise (e : Exn).
Arguments Ok {A} a.
Arguments Raise {A} e.

(** A parsed JSON document, as [response.json()] returns it. *)
Inductive json : Type :=
| JNull
| JBool (b : bool)
| JInt (z : Z)
| JFloat (f : float)
| JStr (s : string)
| JList (items : list json)
| JDict (entries : list (string * json)).

(** [int] to [float]: correctly rounded (to nearest, ties to even).  This
    is Python's conversion for the integers within the range of a double;
    beyond it Python raises [OverflowError] where this rounds to an
    infinity.  The integers converted here are lamport amounts, which the
    ledger keeps in 64 bits. *)
Definition float_of_int (z : Z) : float :=
  SF2Prim (binary_normalize 53 1024 z 0 false).

(** [bytes.hex()]. *)
Definition hex_digit (n : N) : ascii :=
  nth (N.to_nat n) (list_ascii_of_string "0123456789abcdef") "0"%char.

Definition hex_of_byte (b : byte) : string :=
  let n := Byte.to_N b in
  String (hex_digit (n / 16)) (String (hex_digit (n mod 16)) EmptyString).

Fixpoint hex (bs : list byte) : string :=
  match bs with
  | [] => EmptyString
  | b :: rest => (hex_of_byte b ++ hex rest)%string
  end.

(* ------------------------------------------------------------------ *)
(** *** Dictionaries with string keys, in insertion order *)

Module PyDict.
Definition t (V : Type) : Type := list (string * V).

Definition empty {V} : t V := [].

(** [d.get(k)] / [d[k]] *)
Fixpoint get {V} (d : t V) (k : string) : option V :=
  match d with
  | [] => None
  | (k', v) :: rest => if String.eqb k' k then Some v else get rest k
  end.

(** [k in d] *)
Definition contains {V} (d : t V) (k : string) : bool :=
  match get d k with Some _ => true | None => false end.

(** [d[k] = v]: an existing key keeps its position, a new one goes last. *)
Fixpoint set {V} (d : t V) (k : string) (v : V) : t V :=
  match d with
  | [] => [(k, v)]
  | (k', v') :: rest =>
      if String.eqb k' k then (k', v) :: rest else (k', v') :: set rest k v
  end.

Definition keys {V} (d : t V) : list string := map fst d.
Definition values {V} (d : t V) : list V := map snd d.
Definition items {V} (d : t V) : list (string * V) := d.
End PyDict.

(* ------------------------------------------------------------------ *)
(** *** Subscripting, membership and iteration on JSON values *)

(** [v[key]] with a string key. *)
Definition getitem (v : json) (key : string) : Res json :=
  match v with
  | JDict d =>
      match PyDict.get d key with
      | Some x => Ok x
      | None => Raise (KeyError key)
      end
  | JList _ => Raise (TypeError "list indices must be integers or slices, not str")
  | JStr _ => Raise (TypeError "string indices must be integers")
  | _ => Raise (TypeError "object is not subscriptable")
  end.

(** [key in v] with a string key. *)
Definition contains (key : string) (v : json) : Res bool :=
  match v with
  | JDict d => Ok (PyDict.contains d key)
  | JList l =>
      Ok (existsb (fun x => match x with JStr s => String.eqb s key | _ => false end) l)
  | JStr s => Ok (match index 0 key s with Some _ => true | None => false end)
  | _ => Raise (TypeError "argument is not iterable")
  end.

(** [for x in v]. *)
Definition iterate (v : json) : Res (list json) :=
  match v with
  | JList l => Ok l
  | JDict d => Ok (map JStr (PyDict.keys d))
  | JStr s => Ok (map (fun c => JStr (String c EmptyString)) (list_ascii_of_string s))
  | _ => Raise (TypeError "object is not iterable")
  end.

(** [sorted(xs, key=key, reverse=True)]: a stable sort, larger keys first;
    elements with equal keys keep the order they had in [xs]. *)
Section Sorted.
Context {A : Type} (key : A -> Z).

Fixpoint insert_desc (x : A) (l : list A) : list A :=
  match l with
  | [] => [x]
  | y :: rest =>
      if key y <=? key x then x :: y :: rest else y :: insert_desc x rest
  end.

Fixpoint sorted_reverse (xs : list A) : list A :=
  match xs with
  | [] => []
  | x :: rest => insert_desc x (sorted_reverse rest)
  end.
End Sorted.

(** [xs[:stop]]: a negative [stop] counts from the end. *)
Definition slice_to {A} (xs : list A) (stop : Z) : list A :=
  if 0 <=? stop then firstn (Z.to_nat stop) xs
  else firstn (Z.to_nat (Z.of_nat (List.length xs) + stop)) xs.

(** [xs[i]] for a literal index [i >= 0]. *)
Definition item {A} (xs : list A) (i : nat) : Res A :=
  match nth_error xs i with
  | Some x => Ok x
  | None => Raise IndexError
  end.

(* ================================================================== *)
(** ** [models/__init__.py]: the pydantic models

    A model is a record; [init] is its keyword constructor.  A keyword that
    the caller leaves out is [None] here, and a required field that is left
    out (or whose value has the wrong type) raises [ValidationError].  A
    keyword that names no field of the model is dropped, as pydantic's
    default configuration does, so it has no argument here.  Every call in
    the repository passes the [Optional] fields, so those are plain
    arguments. *)

Definition validate_str (field : string) (v : option json) : string + string :=
  match v with
  | Some (JStr s) => inl s
  | _ => inr field
  end.

(** A [float] field takes a JSON number; strings are rejected here
    (pydantic would coerce a numeric one). *)
Definition validate_float (field : string) (v : option json) : float + string :=
  match v with
  | Some (JInt z) => inl (float_of_int z)
  | Some (JFloat f) => inl f
  | Some (JBool b) => inl (if b then 1%float else 0%float)
  | _ => inr field
  end.

Definition missing_field {A} (field : string) (v : option A) : list string :=
  match v with
  | Some _ => []
  | None => [field]
  end.

Module WalletCreate.
Record t : Type := { name : string }.
End WalletCreate.

Module TokenX.
Record t : Type :=
  { symbol : string; name : string; address : string; price : option float }.

Definition init (symbol name address : string) (price : option float) : t :=
  {| symbol := symbol; name := name; address := address; price := price |}.
End TokenX.

Module CustomToken.
Record t : Type :=
  { name : string; symbol : string; decimals : Z; total_supply : Z }.
End CustomToken.

Module Transaction.
Record t : Type :=
  { signature : string;
    timestamp : Z;            (* a [datetime], as seconds since the epoch *)
    type : string;            (* 'send' or 'receive' *)
    amount : float;
    token_symbol : string;
    from_address : string;
    to_address : string;
    status : string }.
End Transaction.

Module TokenBalance.
Record t : Type :=
  { symbol : string; balance : float; usd_value : option float }.

Definition init (symbol balance : option json) (usd_value : option float) : Res t :=
  match validate_str "symbol" symbol, validate_float "balance" balance with
  | inl s, inl b => Ok {| symbol := s; balance := b; usd_value := usd_value |}
  | inr f, inl _ => Raise (ValidationError "TokenBalance" [f])
  | inl _, inr g => Raise (ValidationError "TokenBalance" [g])
  | inr f, inr g => Raise (ValidationError "TokenBalance" [f; g])
  end.
End TokenBalance.

Module WalletBalance.
Record t : Type :=
  { sol_balance : float; usd_value : option float; tokens : list TokenBalance.t }.
End WalletBalance.

Module WalletResponse.
(** Response model for general wallet queries *)
Record t : Type :=
  { private_key : string; public_key : string; name : string }.

Definition init (private_key public_key name : option string) : Res t :=
  match private_key, public_key, name with
  | Some sk, Some pk, Some n =>
      Ok {| private_key := sk; public_key := pk; name := n |}
  | _, _, _ =>
      Raise (ValidationError "WalletResponse"
               (missing_field "private_key" private_key ++
                missing_field "public_key" public_key ++
                missing_field "name" name))
  end.
End WalletResponse.

(** The dictionary [create_wallet] stores for a wallet:
    [{"public_key": ..., "private_key": ..., "name": ...}]. *)
Module Wallet.
Record t : Type :=
  { public_key : string; private_key : string; name : string }.
End Wallet.

(** [response_model=WalletResponse] on a route that returns a stored wallet
    dictionary: FastAPI builds the response from the model's fields. *)
Definition WalletResponse_of_dict (w : Wallet.t) : Res WalletResponse.t :=
  WalletResponse.init (Some (Wallet.private_key w))
                      (Some (Wallet.public_key w))
                      (Some (Wallet.name w)).

(* ================================================================== *)
(** ** The RPC client and the solders library

    What the handlers read from the objects the client returns is kept as
    record fields under the names the source uses.  Every client method is
    a function of the remote ledger [W]: it answers with a value or raises,
    and leaves the ledger in a new state.  ([await] applied to the answer of
    the synchronous client raises as well; that outcome is one of the
    [Raise] answers.) *)

Definition TOKEN_PROGRAM_ID : string :=
  "TokenkegQfeZyiNwAJbNbGKPFXCWuBvf9Ss623VQ5DA".

Record PerfSample : Type := { slot : Z }.

Record Instruction : Type := { data_amount : Z }.   (* [instruction.data.amount] *)

(** [tx.transaction.message] *)
Record Message : Type :=
  { account_keys : list string;
    instructions : list Instruction;
    is_to_wallet : string -> bool }.

Record Block : Type := { transactions : list Message }.

Record AccountInfo : Type := { owner : string; lamports : Z }.

Record MintInfo : Type := { mint_supply : Z; mint_decimals : Z }.

Record SignatureInfo : Type :=
  { signature : string; block_time : option Z; confirmed : bool }.

(** The calls that reach the network, and the settlement wait, as they are
    logged. *)
Inductive Call : Type :=
| CGetRecentPerformanceSamples (limit : Z)
| CGetBlock (slot : Z)
| CGetAccountInfo (address : string)
| CGetMintInfo (address : string)
| CGetBalance (address : string)
| CPost (request_data : json)
| CGetSignaturesForAddress (address : string) (limit : Z) (before : option string)
| CGetTransaction (signature : string)
| CRequestAirdrop (address : string) (lamports : Z)
| CConfirmTransaction (signature : string)
| CSleep (seconds : Z)
| CCreateMint (payer mint_authority : string) (decimals : Z) (program_id : string).

Module Client.
Record t (W : Type) : Type :=
  { get_recent_performance_samples : Z -> W -> Res (list PerfSample) * W;
    get_block : Z -> W -> Res (option Block) * W;
    get_account_info : string -> W -> Res (option AccountInfo) * W;
    get_mint_info : string -> W -> Res (option MintInfo) * W;
    get_balance : string -> W -> Res (option Z) * W;
    (* [client._provider.session.post(...).json()] *)
    post : json -> W -> Res json * W;
    get_signatures_for_address :
      string -> Z -> option string -> W -> Res (list SignatureInfo) * W;
    get_transaction : string -> W -> Res (option Message) * W;
    request_airdrop : string -> Z -> W -> Res (option string) * W;
    (* the truth value of what [confirm_transaction] returns *)
    confirm_transaction : string -> W -> Res bool * W;
    (* [Token.create_mint(...).pubkey] *)
    create_mint : string -> string -> Z -> string -> W -> Res string * W }.
Arguments get_recent_performance_samples {W}.
Arguments get_block {W}.
Arguments get_account_info {W}.
Arguments get_mint_info {W}.
Arguments get_balance {W}.
Arguments post {W}.
Arguments get_signatures_for_address {W}.
Arguments get_transaction {W}.
Arguments request_airdrop {W}.
Arguments confirm_transaction {W}.
Arguments create_mint {W}.
End Client.

(** [solders]: a public key is carried as its base-58 text.
    [Pubkey_valid s] says that [Pubkey.from_string(s)] succeeds;
    [Keypair_pubkey seed] is [str(Keypair.from_seed(seed).pubkey())]. *)
Module Solders.
Record t : Type :=
  { Pubkey_valid : string -> bool;
    Keypair_pubkey : list byte -> string }.
End Solders.

(* ================================================================== *)
(** ** The handlers' monad *)

Record State (W : Type) : Type :=
  { wallets : PyDict.t Wallet.t;     (* [wallets = {}] in wallets.py *)
    remote : W;                      (* the ledger behind [client] *)
    calls : list Call }.
Arguments wallets {W}.
Arguments remote {W}.
Arguments calls {W}.

Definition M (W A : Type) : Type := State W -> Res A * State W.

Definition ret {W A} (a : A) : M W A := fun s => (Ok a, s).

Definition raise {W A} (e : Exn) : M W A := fun s => (Raise e, s).

Definition lift {W A} (r : Res A) : M W A := fun s => (r, s).

Definition bind {W A B} (m : M W A) (k : A -> M W B) : M W B :=
  fun s =>
    match m s with
    | (Ok a, s') => k a s'
    | (Raise e, s') => (Raise e, s')
    end.

(** [try: body except Exception as e: handler e] *)
Definition try_except {W A} (body : M W A) (handler : Exn -> M W A) : M W A :=
  fun s =>
    match body s with
    | (Ok a, s') => (Ok a, s')
    | (Raise e, s') => handler e s'
    end.

(** One logged call to the network. *)
Definition rpc {W A} (c : Call) (f : W -> Res A * W) : M W A :=
  fun s =>
    let (r, w) := f (remote s) in
    (r, {| wallets := wallets s; remote := w; calls := calls s ++ [c] |}).

(** [for x in xs: acc = body x acc] *)
Fixpoint for_each {W A B} (xs : list A) (acc : B) (body : A -> B -> M W B) : M W B :=
  match xs with
  | [] => ret acc
  | x :: rest => bind (body x acc) (fun acc' => for_each rest acc' body)
  end.

Declare Scope py_scope.
Delimit Scope py_scope with py.
Notation "x <- m ;; k" := (bind m (fun x => k))
  (at level 61, m at next level, right associativity) : py_scope.
Notation "m ;;; k" := (bind m (fun _ => k))
  (at level 61, right associativity) : py_scope.

Local Open Scope py_scope.

(** [Pubkey.from_string(s)] *)
Definition Pubkey_from_string (solders : Solders.t) (s : string) : Res string :=
  if Solders.Pubkey_valid solders s then Ok s
  else Raise (ValueError "Pubkey.from_string").

(** [datetime.fromtimestamp(t)], local time being UTC: [None] is a
    [TypeError]; a time outside the years 1..9999 is out of range, and so is
    one within the first day of year 1, since the conversion also looks one
    day back (at year 0) to settle the fold. *)
Definition datetime_fromtimestamp (t : option Z) : Res Z :=
  match t with
  | None => Raise (TypeError "an integer is required")
  | Some z =>
      if (-62135510400 <=? z) && (z <=? 253402300799) then Ok z
      else Raise (ValueError "year is out of range")
  end.

(* ================================================================== *)
(** ** [api/tokens.py] *)

Record TokenMetadata : Type :=
  { address : string; supply : Z; decimals : Z }.

(** A value of [token_transactions]: [{"count": ..., "metadata": ...}] *)
Record TokenEntry : Type :=
  { count : Z; metadata : TokenMetadata }.

Section Tokens.
Context {W : Type} (solders : Solders.t) (client : Client.t W).

(** Helper function to get token metadata from on-chain data.
    (The temporary keypair it draws signs nothing and reaches no result.) *)
Definition get_token_metadata (token_address : string) : M W (option TokenMetadata) :=
  try_except
    (mint_account <- rpc (CGetAccountInfo token_address)
                         (Client.get_account_info client token_address) ;;
     match mint_account with
     | None => ret None
     | Some _ =>
         mint_info <- rpc (CGetMintInfo token_address)
                          (Client.get_mint_info client token_address) ;;
         match mint_info with
         | None => ret None
         | Some info =>
             ret (Some {| address := token_address;
                          supply := mint_supply info;
                          decimals := mint_decimals info |})
         end
     end)
    (fun _ => ret None).

(** Body of [for account in tx.transaction.message.account_keys]. *)
Definition scan_account (account : string) (token_transactions : PyDict.t TokenEntry)
  : M W (PyDict.t TokenEntry) :=
  token_info <- get_token_metadata account ;;
  match token_info with
  | None => ret token_transactions
  | Some info =>
      let token_transactions :=
        if negb (PyDict.contains token_transactions account)
        then PyDict.set token_transactions account {| count := 0; metadata := info |}
        else token_transactions in
      match PyDict.get token_transactions account with
      | Some entry =>
          ret (PyDict.set token_transactions account
                 {| count := count entry + 1; metadata := metadata entry |})
      | None => raise (KeyError account)
      end
  end.

(** Body of [for tx in block_info.value.transactions]. *)
Definition scan_transaction (tx : Message) (token_transactions : PyDict.t TokenEntry)
  : M W (PyDict.t TokenEntry) :=
  if existsb (String.eqb TOKEN_PROGRAM_ID) (account_keys tx)
  then for_each (account_keys tx) token_transactions scan_account
  else ret token_transactions.

(** Body of [for slot in slots]. *)
Definition scan_slot (slot : Z) (token_transactions : PyDict.t TokenEntry)
  : M W (PyDict.t TokenEntry) :=
  block_info <- rpc (CGetBlock slot) (Client.get_block client slot) ;;
  match block_info with
  | None => ret token_transactions     (* warning logged; [continue] *)
  | Some block => for_each (transactions block) token_transactions scan_transaction
  end.

(** The ranking step: [sorted(token_transactions.items(), key=..., reverse=True)[:limit]] *)
Definition sorted_tokens (token_transactions : PyDict.t TokenEntry) (limit : Z)
  : list (string * TokenEntry) :=
  slice_to (sorted_reverse (fun x => count (snd x)) (PyDict.items token_transactions)) limit.

(** The first half of [get_trending_tokens]: from the performance samples
    to the filled [token_transactions]. *)
Definition scan_recent_blocks : M W (PyDict.t TokenEntry) :=
  performance_samples <- rpc (CGetRecentPerformanceSamples 5)
                             (Client.get_recent_performance_samples client 5) ;;
  match performance_samples with
  | [] => raise (HTTPException 500 (Lit "Failed to fetch recent blocks"))
  | _ :: _ =>
      let slots := map slot (firstn 5 performance_samples) in
      for_each slots PyDict.empty scan_slot
  end.

(** [TokenX(symbol="Unknown", name="Unknown", address=address, price=0.0)] *)
Definition unknown_token (item : string * TokenEntry) : TokenX.t :=
  let '(address, data) := item in
  TokenX.init "Unknown" "Unknown" address (Some 0%float).

(** Get list of trending tokens based on recent transaction volume *)
Definition get_trending_tokens (limit : Z) : M W (list TokenX.t) :=
  try_except
    (token_transactions <- scan_recent_blocks ;;
     ret (map unknown_token (sorted_tokens token_transactions limit)))
    (fun e => raise (HTTPException 500 (Str e))).

Definition request_airdrop (wallet_address : string) (lamports : Z) : M W string :=
  try_except
    (pubkey <- lift (Pubkey_from_string solders wallet_address) ;;
     response <- rpc (CRequestAirdrop pubkey lamports)
                     (Client.request_airdrop client pubkey lamports) ;;
     match response with
     | None =>
         raise (HTTPException 500
                  (Lit "Airdrop request failed - no transaction signature returned"))
     | Some value =>
         rpc (CConfirmTransaction value) (Client.confirm_transaction client value) ;;;
         ret value
     end)
    (fun e => raise (HTTPException 500 (Fmt "Failed to request airdrop: " e))).

Definition create_custom_token (seed_bytes : list byte) (token_data : CustomToken.t)
  : M W TokenX.t :=
  try_except
    (let mint_authority := Solders.Keypair_pubkey solders seed_bytes in
     rpc (CGetBalance mint_authority) (Client.get_balance client mint_authority) ;;;
     airdrop_sig <- request_airdrop mint_authority 1000000000 ;;
     rpc (CSleep 30) (fun w => (Ok tt, w)) ;;;
     confirmation <- rpc (CConfirmTransaction airdrop_sig)
                         (Client.confirm_transaction client airdrop_sig) ;;
     if negb confirmation
     then raise (HTTPException 500 (Lit "Failed to confirm airdrop transaction"))
     else
       rpc (CGetBalance mint_authority) (Client.get_balance client mint_authority) ;;;
       token <- rpc (CCreateMint mint_authority mint_authority
                                 (CustomToken.decimals token_data) TOKEN_PROGRAM_ID)
                    (Client.create_mint client mint_authority mint_authority
                                 (CustomToken.decimals token_data) TOKEN_PROGRAM_ID) ;;
       ret (TokenX.init (CustomToken.symbol token_data) (CustomToken.name token_data)
                        token None))
    (fun e => raise (HTTPException 500 (Str e))).
End Tokens.

(* ================================================================== *)
(** ** [api/wallets.py] *)

Definition and_then {A B} (r : Res A) (k : A -> Res B) : Res B :=
  match r with
  | Ok a => k a
  | Raise e => Raise e
  end.

(** The body of the inner [try] of [get_wallet_balance], for one account.
    The keyword [address=mint_address] names no field of [TokenBalance], and
    no [symbol] keyword is passed. *)
Definition parse_token_account (account : json) : Res TokenBalance.t :=
  and_then (getitem account "account") (fun a =>
  and_then (getitem a "data") (fun d =>
  and_then (getitem d "parsed") (fun p =>
  and_then (getitem p "info") (fun parsed_data =>
  and_then (getitem parsed_data "mint") (fun mint_address =>
  and_then (getitem parsed_data "tokenAmount") (fun token_amount =>
  and_then (getitem token_amount "uiAmount") (fun ui_amount =>
  TokenBalance.init None (Some ui_amount) None))))))).

(** [except (KeyError, TypeError)] *)
Definition is_KeyError_or_TypeError (e : Exn) : bool :=
  match e with
  | KeyError _ | TypeError _ => true
  | _ => false
  end.

(** [for account in ...: try: ... except (KeyError, TypeError): continue] *)
Fixpoint parse_token_accounts (accounts : list json) (token_balances : list TokenBalance.t)
  : Res (list TokenBalance.t) :=
  match accounts with
  | [] => Ok token_balances
  | account :: rest =>
      match parse_token_account account with
      | Ok tb => parse_token_accounts rest (token_balances ++ [tb])
      | Raise e =>
          if is_KeyError_or_TypeError e
          then parse_token_accounts rest token_balances    (* logged; [continue] *)
          else Raise e
      end
  end.

(** From [token_response_data] to [token_balances]. *)
Definition token_balances_of (token_response_data : json) : Res (list TokenBalance.t) :=
  and_then (contains "result" token_response_data) (fun has_result =>
  and_then (if has_result
            then and_then (getitem token_response_data "result") (contains "value")
            else Ok false) (fun has_value =>
  if has_value
  then and_then (getitem token_response_data "result") (fun result =>
       and_then (getitem result "value") (fun value =>
       and_then (iterate value) (fun accounts =>
       parse_token_accounts accounts [])))
  else Ok [])).

Definition request_data (wallet_pubkey : string) : json :=
  JDict [("method", JStr "getTokenAccountsByOwner");
         ("jsonrpc", JStr "2.0");
         ("params", JList [JStr wallet_pubkey;
                           JDict [("programId", JStr TOKEN_PROGRAM_ID)];
                           JDict [("encoding", JStr "jsonParsed")]]);
         ("id", JInt 1)].

(** Lamports to SOL: [value / 1e9]. *)
Definition lamports_to_sol (value : Z) : float :=
  PrimFloat.div (float_of_int value) 1e9%float.

(** The [Transaction(...)] the loop of [get_wallet_transactions] builds for
    a signature whose transaction resolved to [tx]: [instructions[0]] is
    read first, then the keyword arguments in order. *)
Definition record_of (public_key : string) (si : SignatureInfo) (tx : Message)
  : Res Transaction.t :=
  and_then (item (instructions tx) 0) (fun instruction =>
  and_then (datetime_fromtimestamp (block_time si)) (fun timestamp =>
  and_then (item (account_keys tx) 0) (fun from_address =>
  and_then (item (account_keys tx) 1) (fun to_address =>
  Ok {| Transaction.signature := signature si;
        Transaction.timestamp := timestamp;
        Transaction.type := if is_to_wallet tx public_key then "receive" else "send";
        Transaction.amount := lamports_to_sol (data_amount instruction);
        Transaction.token_symbol := "SOL";
        Transaction.from_address := from_address;
        Transaction.to_address := to_address;
        Transaction.status := if confirmed si then "confirmed" else "pending" |})))).

Section Wallets.
Context {W : Type} (solders : Solders.t) (client : Client.t W).

(** [wallets[public_key] = wallet] *)
Definition store_wallet (public_key : string) (wallet : Wallet.t) : M W unit :=
  fun s =>
    (Ok tt, {| wallets := PyDict.set (wallets s) public_key wallet;
               remote := remote s;
               calls := calls s |}).

(** Reads the module-level dictionary. *)
Definition read_wallets : M W (PyDict.t Wallet.t) :=
  fun s => (Ok (wallets s), s).

(** Create a new Solana wallet.  [seed_bytes] is what [os.urandom(32)] drew. *)
Definition create_wallet (seed_bytes : list byte) (wallet_data : WalletCreate.t)
  : M W WalletResponse.t :=
  try_except
    (let public_key := Solders.Keypair_pubkey solders seed_bytes in
     let private_key := hex seed_bytes in
     let wallet := {| Wallet.public_key := public_key;
                      Wallet.private_key := private_key;
                      Wallet.name := WalletCreate.name wallet_data |} in
     store_wallet public_key wallet ;;;
     lift (WalletResponse.init None
                               (Some (Wallet.public_key wallet))
                               (Some (Wallet.name wallet))))
    (fun e => raise (HTTPException 500 (Str e))).

(** [response_model=List[WalletResponse]] over a list of stored dictionaries. *)
Fixpoint WalletResponses_of_dicts (ws : list Wallet.t) : Res (list WalletResponse.t) :=
  match ws with
  | [] => Ok []
  | w :: rest =>
      and_then (WalletResponse_of_dict w) (fun r =>
      and_then (WalletResponses_of_dicts rest) (fun rs => Ok (r :: rs)))
  end.

(** Get all wallets *)
Definition get_wallets : M W (list WalletResponse.t) :=
  ws <- read_wallets ;;
  lift (WalletResponses_of_dicts (PyDict.values ws)).

(** Get specific wallet details *)
Definition get_wallet (public_key : string) : M W WalletResponse.t :=
  ws <- read_wallets ;;
  match PyDict.get ws public_key with
  | None => raise (HTTPException 404 (Lit "Wallet not found"))
  | Some wallet => lift (WalletResponse_of_dict wallet)
  end.

(** Get wallet SOL and token balances *)
Definition get_wallet_balance (public_key : string) : M W WalletBalance.t :=
  try_except
    (wallet_pubkey <- lift (Pubkey_from_string solders public_key) ;;
     response <- rpc (CGetBalance wallet_pubkey) (Client.get_balance client wallet_pubkey) ;;
     match response with
     | None => raise (HTTPException 500 (Lit "Failed to fetch SOL balance"))
     | Some value =>
         let sol_balance := lamports_to_sol value in
         token_response_data <- rpc (CPost (request_data wallet_pubkey))
                                    (Client.post client (request_data wallet_pubkey)) ;;
         token_balances <- lift (token_balances_of token_response_data) ;;
         ret {| WalletBalance.sol_balance := sol_balance;
                WalletBalance.usd_value := None;
                WalletBalance.tokens := token_balances |}
     end)
    (fun e => raise (HTTPException 500 (Str e))).

(** Body of [for signature_info in response.value]. *)
Definition transaction_of (public_key : string) (signature_info : SignatureInfo)
           (transactions : list Transaction.t) : M W (list Transaction.t) :=
  tx_response <- rpc (CGetTransaction (signature signature_info))
                     (Client.get_transaction client (signature signature_info)) ;;
  match tx_response with
  | None => ret transactions
  | Some tx =>
      record <- lift (record_of public_key signature_info tx) ;;
      ret (transactions ++ [record])%list
  end.

(** Get wallet transaction history *)
Definition get_wallet_transactions (public_key : string) (limit : Z) (before : option string)
  : M W (list Transaction.t) :=
  ws <- read_wallets ;;
  if negb (PyDict.contains ws public_key)
  then raise (HTTPException 404 (Lit "Wallet not found"))
  else
    try_except
      (address <- lift (Pubkey_from_string solders public_key) ;;
       response <- rpc (CGetSignaturesForAddress address limit before)
                       (Client.get_signatures_for_address client address limit before) ;;
       for_each response [] (transaction_of public_key))
      (fun e => raise (HTTPException 500 (Str e))).
End Wallets.

(* ================================================================== *)
(** ** A static ledger

    The scenarios of the specification are stated over a ledger that does
    not change while a handler runs.  [ledger_client l] answers every call
    from the ledger [l]: signatures newest first, at most [limit] of them
    (a limit outside 1..1000 is refused, as the RPC node does), and only
    those after the cursor [before]. *)

Record Entry : Type :=
  { info : SignatureInfo; tx : option Message }.

Record Ledger : Type :=
  { samples : list PerfSample;
    blocks : list (Z * Block);
    mints : PyDict.t MintInfo;
    balances : PyDict.t Z;
    token_accounts : json;          (* the answer to [getTokenAccountsByOwner] *)
    history : list Entry;           (* newest first *)
    faucet : option string }.       (* the signature an airdrop is answered with *)

Fixpoint block_at (bs : list (Z * Block)) (slot : Z) : option Block :=
  match bs with
  | [] => None
  | (n, b) :: rest => if n =? slot then Some b else block_at rest slot
  end.

(** The entries strictly after the one signed [cursor]. *)
Fixpoint after (cursor : string) (h : list Entry) : list Entry :=
  match h with
  | [] => []
  | e :: rest => if String.eqb (signature (info e)) cursor then rest else after cursor rest
  end.

Definition page (h : list Entry) (limit : Z) (before : option string) : list Entry :=
  firstn (Z.to_nat limit)
         (match before with
          | None => h
          | Some cursor => after cursor h
          end).

Fixpoint entry_signed (h : list Entry) (sig : string) : option Entry :=
  match h with
  | [] => None
  | e :: rest => if String.eqb (signature (info e)) sig then Some e else entry_signed rest sig
  end.

Definition ledger_client (l : Ledger) : Client.t unit :=
  {| Client.get_recent_performance_samples :=
       fun limit w => (Ok (firstn (Z.to_nat limit) (samples l)), w);
     Client.get_block := fun slot w => (Ok (block_at (blocks l) slot), w);
     Client.get_account_info :=
       fun a w => (Ok (match PyDict.get (mints l) a with
                       | Some _ => Some {| owner := TOKEN_PROGRAM_ID; lamports := 0 |}
                       | None => None
                       end), w);
     Client.get_mint_info := fun a w => (Ok (PyDict.get (mints l) a), w);
     Client.get_balance :=
       fun a w => (Ok (Some (match PyDict.get (balances l) a with
                             | Some v => v
                             | None => 0
                             end)), w);
     Client.post := fun _ w => (Ok (token_accounts l), w);
     Client.get_signatures_for_address :=
       fun _ limit before w =>
         (if (1 <=? limit) && (limit <=? 1000)
          then Ok (map info (page (history l) limit before))
          else Raise (ClientError "Invalid limit; max 1000"), w);
     Client.get_transaction :=
       fun sig w => (Ok (match entry_signed (history l) sig with
                         | Some e => tx e
                         | None => None
                         end), w);
     Client.request_airdrop := fun _ _ w => (Ok (faucet l), w);
     Client.confirm_transaction := fun _ w => (Ok true, w);
     Client.create_mint := fun payer _ _ _ w => (Ok ("mint-of-" ++ payer)%string, w) |}.

(** Every string is a public key, and a key pair's is the hex of its seed:
    enough to run the handlers on the scenarios. *)
Definition plain_solders : Solders.t :=
  {| Solders.Pubkey_valid := fun _ => true;
     Solders.Keypair_pubkey := hex |}.

Definition empty_ledger : Ledger :=
  {| samples := []; blocks := []; mints := []; balances := [];
     token_accounts := JDict [("result", JDict [("value", JList [])])];
     history := []; faucet := None |}.

Definition start {W} (ws : PyDict.t Wallet.t) (w : W) : State W :=
  {| wallets := ws; remote := w; calls := [] |}.

(* ================================================================== *)
(** ** Notions the statements use *)

(** Position of a string in a list (the length of the list when absent). *)
Fixpoint position (k : string) (ks : list string) : nat :=
  match ks with
  | [] => O
  | k' :: rest => if String.eqb k' k then O else S (position k rest)
  end.

(** [a] is ranked before [b]: larger key, or equal keys and earlier position. *)
Definition before {A} (key : A -> Z) (pos : A -> nat) (a b : A) : Prop :=
  key b < key a \/ (key a = key b /\ (pos a < pos b)%nat).

(** Ranking order over the scan's dictionary [d]: a larger count first,
    and among equal counts the address that was inserted first. *)
Definition ranks_before (d : PyDict.t TokenEntry) (a b : string * TokenEntry) : Prop :=
  before (fun x => count (snd x)) (fun x => position (fst x) (PyDict.keys d)) a b.

(** What a run of the loop over [sigs] can append: nothing for a signature
    that did not resolve, [record_of] for one that did at some ledger state. *)
Inductive built_from {W} (client : Client.t W) (public_key : string)
  : list SignatureInfo -> list Transaction.t -> Prop :=
| built_nil : built_from client public_key [] []
| built_skip si sigs txs :
    built_from client public_key sigs txs ->
    built_from client public_key (si :: sigs) txs
| built_keep si sigs txs tx r w w' :
    Client.get_transaction client (signature si) w = (Ok (Some tx), w') ->
    record_of public_key si tx = Ok r ->
    built_from client public_key sigs txs ->
    built_from client public_key (si :: sigs) (r :: txs).

(** Assumptions on the gateway's [get_signatures_for_address], over a
    ledger order [older] on signatures. *)
Section Gateway.
Context {W : Type} (older : string -> string -> Prop) (client : Client.t W).

Definition honours_limit : Prop :=
  forall address limit before w sigs w',
    Client.get_signatures_for_address client address limit before w = (Ok sigs, w') ->
    Z.of_nat (List.length sigs) <= limit.

Definition newest_first : Prop :=
  forall address limit before w sigs w',
    Client.get_signatures_for_address client address limit before w = (Ok sigs, w') ->
    StronglySorted (fun a b => older b a) (map signature sigs).

Definition strictly_before : Prop :=
  forall address limit cursor w sigs w',
    Client.get_signatures_for_address client address limit (Some cursor) w = (Ok sigs, w') ->
    Forall (fun sig => older sig cursor) (map signature sigs).
End Gateway.

(** A resolvable entry of the static ledger whose transaction is the simple
    transfer the reconstruction expects. *)
Definition resolvable (public_key : string) (e : Entry) : bool :=
  match tx e with
  | Some m => match record_of public_key (info e) m with Ok _ => true | Raise _ => false end
  | None => false
  end.

Definition unresolvable (e : Entry) : bool :=
  match tx e with
  | Some _ => false
  | None => true
  end.

(** The records of the resolvable entries of [es], in order. *)
Fixpoint records (public_key : string) (es : list Entry) : list Transaction.t :=
  match es with
  | [] => []
  | e :: rest =>
      match tx e with
      | Some m =>
          match record_of public_key (info e) m with
          | Ok r => r :: records public_key rest
          | Raise _ => records public_key rest
          end
      | None => records public_key rest
      end
  end.

(** *** Scenario ledgers *)

(** One performance sample whose block is unavailable. *)
Definition one_sample_no_block : Ledger :=
  {| samples := [ {| slot := 7 |} ]; blocks := []; mints := []; balances := [];
     token_accounts := token_accounts empty_ledger; history := []; faucet := None |}.

(** Two blocks with token-program transactions over three mints: ["B"] is
    referenced twice, ["A"] and ["C"] once, ["A"] first. *)
Definition token_tx (keys : list string) : Message :=
  {| account_keys := TOKEN_PROGRAM_ID :: keys;
     instructions := [];
     is_to_wallet := fun _ => false |}.

Definition one_mint : MintInfo := {| mint_supply := 1000; mint_decimals := 9 |}.

Definition three_mints : Ledger :=
  {| samples := [ {| slot := 1 |}; {| slot := 2 |}; {| slot := 3 |} ];
     blocks := [ (1, {| transactions := [ token_tx ["A"; "B"] ] |});
                 (3, {| transactions := [ token_tx ["B"; "C"] ] |}) ];
     mints := [ ("A", one_mint); ("B", one_mint); ("C", one_mint) ];
     balances := [];
     token_accounts := token_accounts empty_ledger;
     history := [];
     faucet := None |}.

(** A 32-byte seed and a token request, for the provisioning scenario. *)
Definition seed_42 : list byte := repeat x2a 32.

Definition demo_token : CustomToken.t :=
  {| CustomToken.name := "Demo"; CustomToken.symbol := "DMO";
     CustomToken.decimals := 9; CustomToken.total_supply := 1000000 |}.

(** The error the provisioning flow ends with when the airdrop was answered
    without a signature. *)
Definition airdrop_failed : Exn :=
  HTTPException 500
    (Str (HTTPException 500
       (Fmt "Failed to request airdrop: "
          (HTTPException 500
             (Lit "Airdrop request failed - no transaction signature returned"))))).

Definition is_CreateMint (c : Call) : bool :=
  match c with
  | CCreateMint _ _ _ _ => true
  | _ => false
  end.

(** A well-formed entry of the [getTokenAccountsByOwner] answer:
    [{"account": {"data": {"parsed": {"info": {"mint": ..., "tokenAmount":
    {"uiAmount": ...}}}}}}]. *)
Definition token_account (mint : string) (ui_amount : json) : json :=
  JDict [("account",
          JDict [("data",
                  JDict [("parsed",
                          JDict [("info",
                                  JDict [("mint", JStr mint);
                                         ("tokenAmount",
                                          JDict [("uiAmount", ui_amount)])])])])])].

Definition accounts_result (accounts : list json) : json :=
  JDict [("context", JDict [("slot", JInt 1)]); ("value", JList accounts)].

(** A ledger on which [public_key] holds [value] lamports and the token
    accounts [accounts]. *)
Definition holder (public_key : string) (value : Z) (accounts : list json) : Ledger :=
  {| samples := []; blocks := []; mints := [];
     balances := [(public_key, value)];
     token_accounts :=
       JDict [("jsonrpc", JStr "2.0");
              ("result", accounts_result accounts);
              ("id", JInt 1)];
     history := []; faucet := None |}.

(** An entry is malformed when reading it raises what the inner [except]
    catches. *)
Definition malformed (account : json) : bool :=
  match parse_token_account account with
  | Ok _ => false
  | Raise e => is_KeyError_or_TypeError e
  end.

(** The signature of the last record of a page. *)
Fixpoint last_signature (page : list Transaction.t) : option string :=
  match page with
  | [] => None
  | [r] => Some (Transaction.signature r)
  | _ :: rest => last_signature rest
  end.

Definition no_shared_signature (page1 page2 : list Transaction.t) : Prop :=
  forall r1 r2, In r1 page1 -> In r2 page2 ->
                Transaction.signature r1 <> Transaction.signature r2.

(** What the handler settles for a record.  It carries one of the two
    directions, and the direction is the answer of the resolved message's
    own test [is_to_wallet] for the queried wallet.  Its [from_address] and
    [to_address] are the message's first two account keys, whatever the
    direction: the handler never compares the queried wallet with them.  So
    ["receive"] means "the queried wallet is [to_address]" for the messages
    whose test agrees with their second account key, and only for those. *)
Definition direction_by_test {W} (client : Client.t W) (public_key : string)
           (r : Transaction.t) : Prop :=
  exists tx w w',
    Client.get_transaction client (Transaction.signature r) w = (Ok (Some tx), w') /\
    (Transaction.type r = "receive" \/ Transaction.type r = "send") /\
    ~ (Transaction.type r = "receive" /\ Transaction.type r = "send") /\
    (Transaction.type r = "receive" <-> is_to_wallet tx public_key = true) /\
    nth_error (account_keys tx) 0 = Some (Transaction.from_address r) /\
    nth_error (account_keys tx) 1 = Some (Transaction.to_address r) /\
    ((is_to_wallet tx public_key = true <-> nth_error (account_keys tx) 1 = Some public_key) ->
     (Transaction.type r = "receive" <-> Transaction.to_address r = public_key)).

(** Ledger order of a static history (newest first): [a] is older than [b]
    when it stands later in the history. *)
Definition signatures (h : list Entry) : list string :=
  map (fun e => signature (info e)) h.

Definition older_in (h : list Entry) (a b : string) : Prop :=
  (position b (signatures h) < position a (signatures h))%nat.

(** A transfer of [amount] lamports from [sender] to [receiver]. *)
Definition transfer (sender receiver : string) (amount : Z) : Message :=
  {| account_keys := [sender; receiver];
     instructions := [ {| data_amount := amount |} ];
     is_to_wallet := String.eqb receiver |}.

Definition signed (sig : string) (t : Z) (m : option Message) : Entry :=
  {| info := {| signature := sig; block_time := Some t; confirmed := true |};
     tx := m |}.

Definition addr1_wallets : PyDict.t Wallet.t :=
  [("addr1", {| Wallet.public_key := "addr1";
                Wallet.private_key := hex seed_42;
                Wallet.name := "main" |})].

(** Four signatures, all resolvable. *)
Definition four_transfers : Ledger :=
  {| samples := []; blocks := []; mints := []; balances := [];
     token_accounts := token_accounts empty_ledger;
     history := [ signed "sig4" 1700000400 (Some (transfer "addr2" "addr1" 4000000000));
                  signed "sig3" 1700000300 (Some (transfer "addr1" "addr2" 3000000000));
                  signed "sig2" 1700000200 (Some (transfer "addr3" "addr1" 2000000000));
                  signed "sig1" 1700000100 (Some (transfer "addr1" "addr3" 1000000000)) ];
     faucet := None |}.

(** Three signatures: the third one does not resolve. *)
Definition third_unresolvable : Ledger :=
  {| samples := []; blocks := []; mints := []; balances := [];
     token_accounts := token_accounts empty_ledger;
     history := [ signed "sig3" 1700000300 (Some (transfer "addr2" "addr1" 3000000000));
                  signed "sig2" 1700000200 (Some (transfer "addr1" "addr2" 2000000000));
                  signed "sig1" 1700000100 None ];
     faucet := None |}.

(** Three signatures: the second one does not resolve. *)
Definition second_unresolvable : Ledger :=
  {| samples := []; blocks := []; mints := []; balances := [];
     token_accounts := token_accounts empty_ledger;
     history := [ signed "sig3" 1700000300 (Some (transfer "addr2" "addr1" 3000000000));
                  signed "sig2" 1700000200 None;
                  signed "sig1" 1700000100 (Some (transfer "addr1" "addr2" 1000000000)) ];
     faucet := None |}.

(* ================================================================== *)
(** ** [api/wallets.py]: [add_token_to_wallet] *)

(** [bytes.fromhex(s)]: two hexadecimal digits per byte, in either case;
    ASCII whitespace between bytes is skipped; anything else is a
    [ValueError]. *)
Definition hex_value (c : ascii) : option N :=
  let n := N_of_ascii c in
  if (48 <=? n)%N && (n <=? 57)%N then Some (n - 48)%N
  else if (97 <=? n)%N && (n <=? 102)%N then Some (n - 87)%N
  else if (65 <=? n)%N && (n <=? 70)%N then Some (n - 55)%N
  else None.

Definition is_space (c : ascii) : bool :=
  let n := N_of_ascii c in
  (n =? 32)%N || ((9 <=? n)%N && (n <=? 13)%N).

Definition byte_of_digits (top bot : N) : byte :=
  match Byte.of_N (16 * top + bot) with
  | Some b => b
  | None => x00
  end.

Fixpoint fromhex_chars (cs : list ascii) : Res (list byte) :=
  match cs with
  | [] => Ok []
  | c :: rest =>
      if is_space c then fromhex_chars rest
      else
        match hex_value c, rest with
        | Some top, c' :: rest' =>
            match hex_value c' with
            | Some bot =>
                match fromhex_chars rest' with
                | Ok bs => Ok (byte_of_digits top bot :: bs)
                | Raise e => Raise e
                end
            | None => Raise (ValueError "non-hexadecimal number found in fromhex() arg")
            end
        | _, _ => Raise (ValueError "non-hexadecimal number found in fromhex() arg")
        end
  end.

Definition fromhex (s : string) : Res (list byte) :=
  fromhex_chars (list_ascii_of_string s).

(** [Keypair.from_seed(seed)]: the seed must be 32 bytes long.  A key pair
    is carried as its seed. *)
Definition Keypair_from_seed (seed : list byte) : Res (list byte) :=
  if (List.length seed =? 32)%nat then Ok seed
  else Raise (ValueError "Keypair.from_seed: wrong seed length").

(** The SPL token client: [Token(client, mint, program_id, payer)
    .create_associated_token_account(owner)], as a function of the ledger.
    (The log [calls] has no entry for it.) *)
Module SplToken.
Record t (W : Type) : Type :=
  { create_associated_token_account :
      list byte -> string -> string -> string -> W -> Res string * W }.
Arguments create_associated_token_account {W}.
End SplToken.

(** A call of the SPL token client: the ledger moves on. *)
Definition spl {W A} (f : W -> Res A * W) : M W A :=
  fun s =>
    let (r, w) := f (remote s) in
    (r, {| wallets := wallets s; remote := w; calls := calls s |}).

(** The dictionary [add_token_to_wallet] returns. *)
Record TokenAdded : Type :=
  { message : string; associated_token_account : string }.

Section AddToken.
Context {W : Type} (solders : Solders.t) (token_client : SplToken.t W).

(** Add token to wallet *)
Definition add_token_to_wallet (public_key token_address : string) : M W TokenAdded :=
  ws <- read_wallets ;;
  match PyDict.get ws public_key with
  | None => raise (HTTPException 404 (Lit "Wallet not found"))
  | Some wallet =>
      try_except
        (seed_bytes <- lift (fromhex (Wallet.private_key wallet)) ;;
         wallet_keypair <- lift (Keypair_from_seed seed_bytes) ;;
         mint <- lift (Pubkey_from_string solders token_address) ;;
         associated_token_account <-
           spl (SplToken.create_associated_token_account token_client
                  wallet_keypair mint TOKEN_PROGRAM_ID
                  (Solders.Keypair_pubkey solders wallet_keypair)) ;;
         ret {| message := "Token added successfully";
                associated_token_account := associated_token_account |})
        (fun e => raise (HTTPException 500 (Str e)))
  end.
End AddToken.

(* ================================================================== *)
(** ** Notions the further statements use *)

(** An SPL token client that always creates the account. *)
Definition plain_spl : SplToken.t unit :=
  {| SplToken.create_associated_token_account :=
       fun _ mint _ owner w => (Ok ("ata:" ++ owner ++ ":" ++ mint)%string, w) |}.

(** A result is a value or an [HTTPException] with one of the given codes. *)
Definition only_http {A} (codes : list Z) (r : Res A) : Prop :=
  match r with
  | Ok _ => True
  | Raise (HTTPException code _) => In code codes
  | Raise _ => False
  end.

Definition prefix_of {A} (l full : list A) : Prop :=
  exists rest, full = (l ++ rest)%list.

Definition is_GetBlock (c : Call) : bool :=
  match c with
  | CGetBlock _ => true
  | _ => false
  end.

(** [c], except that [get_balance] answers without a value. *)
Definition answering_no_balance (c : Client.t unit) : Client.t unit :=
  {| Client.get_recent_performance_samples := Client.get_recent_performance_samples c;
     Client.get_block := Client.get_block c;
     Client.get_account_info := Client.get_account_info c;
     Client.get_mint_info := Client.get_mint_info c;
     Client.get_balance := fun _ w => (Ok None, w);
     Client.post := Client.post c;
     Client.get_signatures_for_address := Client.get_signatures_for_address c;
     Client.get_transaction := Client.get_transaction c;
     Client.request_airdrop := Client.request_airdrop c;
     Client.confirm_transaction := Client.confirm_transaction c;
     Client.create_mint := Client.create_mint c |}.

(** A ledger whose node answers [getTokenAccountsByOwner] with a JSON-RPC
    error object. *)
Definition rpc_error_ledger (public_key : string) (value : Z) : Ledger :=
  {| samples := []; blocks := []; mints := [];
     balances := [(public_key, value)];
     token_accounts :=
       JDict [("jsonrpc", JStr "2.0");
              ("error", JDict [("code", JInt (-32602));
                               ("message", JStr "Invalid param: WrongSize")]);
              ("id", JInt 1)];
     history := []; faucet := None |}.

(** A list of token accounts in which nothing parses: an entry without
    ["account"], a string, and an entry whose ["tokenAmount"] is null. *)
Definition malformed_accounts : list json :=
  [ JDict [("pubkey", JStr "acc1")];
    JStr "acc2";
    JDict [("account",
            JDict [("data",
                    JDict [("parsed",
                            JDict [("info",
                                    JDict [("mint", JStr "M");
                                           ("tokenAmount", JNull)])])])])] ].

(** Three signatures: the second one resolves to a transaction without
    instructions. *)
Definition second_without_instructions : Ledger :=
  {| samples := []; blocks := []; mints := []; balances := [];
     token_accounts := token_accounts empty_ledger;
     history := [ signed "sig3" 1700000300 (Some (transfer "addr2" "addr1" 3000000000));
                  signed "sig2" 1700000200
                         (Some {| account_keys := ["addr1"; "addr2"];
                                  instructions := [];
                                  is_to_wallet := String.eqb "addr2" |});
                  signed "sig1" 1700000100 (Some (transfer "addr1" "addr2" 1000000000)) ];
     faucet := None |}.

(** Six performance samples, none of whose blocks is available. *)
Definition six_samples : Ledger :=
  {| samples := map (fun n => {| slot := n |}) [106; 105; 104; 103; 102; 101];
     blocks := []; mints := []; balances := [];
     token_accounts := token_accounts empty_ledger; history := []; faucet := None |}.

Definition block_calls {W} (s : State W) : list Call := filter is_GetBlock (calls s).

(** [c], except that the sample request answers with all of [ps], whatever
    the limit asked for. *)
Definition answering_samples (ps : list PerfSample) (c : Client.t unit) : Client.t unit :=
  {| Client.get_recent_performance_samples := fun _ w => (Ok ps, w);
     Client.get_block := Client.get_block c;
     Client.get_account_info := Client.get_account_info c;
     Client.get_mint_info := Client.get_mint_info c;
     Client.get_balance := Client.get_balance c;
     Client.post := Client.post c;
     Client.get_signatures_for_address := Client.get_signatures_for_address c;
     Client.get_transaction := Client.get_transaction c;
     Client.request_airdrop := Client.request_airdrop c;
     Client.confirm_transaction := Client.confirm_transaction c;
     Client.create_mint := Client.create_mint c |}.

Definition six_samples_client : Client.t unit :=
  answering_samples (samples six_samples) (ledger_client six_samples).

(** An item of the scan's dictionary is well counted: it was sighted at
    least once and carries the metadata of its own address. *)
Definition well_counted (item : string * TokenEntry) : Prop :=
  1 <= count (snd item) /\ address (metadata (snd item)) = fst item.

(** The placeholders every trending token is answered with. *)
Definition is_placeholder (t : TokenX.t) : Prop :=
  TokenX.symbol t = "Unknown" /\ TokenX.name t = "Unknown" /\
  TokenX.price t = Some 0%float.

(** A transaction that does not reference the token program. *)
Definition references_token_program (tx : Message) : bool :=
  existsb (String.eqb TOKEN_PROGRAM_ID) (account_keys tx).

(** One block with two plain transfers, and mints that nobody references
    through the token program. *)
Definition plain_block : Ledger :=
  {| samples := [ {| slot := 9 |} ];
     blocks := [ (9, {| transactions := [ transfer "A" "B" 5; transfer "B" "C" 7 ] |}) ];
     mints := [ ("A", one_mint); ("B", one_mint) ];
     balances := []; token_accounts := token_accounts empty_ledger;
     history := []; faucet := None |}.

(** A ledger whose faucet answers an airdrop with a signature. *)
Definition funded_faucet : Ledger :=
  {| samples := []; blocks := []; mints := []; balances := [];
     token_accounts := token_accounts empty_ledger; history := [];
     faucet := Some "airdrop1" |}.

(** [c], except that [confirm_transaction] answers with a false value. *)
Definition answering_unconfirmed (c : Client.t unit) : Client.t unit :=
  {| Client.get_recent_performance_samples := Client.get_recent_performance_samples c;
     Client.get_block := Client.get_block c;
     Client.get_account_info := Client.get_account_info c;
     Client.get_mint_info := Client.get_mint_info c;
     Client.get_balance := Client.get_balance c;
     Client.post := Client.post c;
     Client.get_signatures_for_address := Client.get_signatures_for_address c;
     Client.get_transaction := Client.get_transaction c;
     Client.request_airdrop := Client.request_airdrop c;
     Client.confirm_transaction := fun _ w => (Ok false, w);
     Client.create_mint := Client.create_mint c |}.

(** The calls of a complete provisioning flow, in order. *)
Definition provisioning_calls (mint_authority airdrop_sig : string) (decimals : Z)
  : list Call :=
  [ CGetBalance mint_authority;
    CRequestAirdrop mint_authority 1000000000;
    CConfirmTransaction airdrop_sig;
    CSleep 30;
    CConfirmTransaction airdrop_sig;
    CGetBalance mint_authority;
    CCreateMint mint_authority mint_authority decimals TOKEN_PROGRAM_ID ].

(* ================================================================== *)
(** ** [frontend/main.py], [frontend/__init__.py]: [format_address] *)

(** [xs[start:]]: a negative [start] counts from the end. *)
Definition slice_from {A} (xs : list A) (start : Z) : list A :=
  if 0 <=? start then skipn (Z.to_nat start) xs
  else skipn (Z.to_nat (Z.of_nat (List.length xs) + start)) xs.

(** Format address to show beginning and end with ellipsis:
    [f"{address[:length]}...{address[-length:]}"], the address as it is when
    [len(address) <= length * 2]. *)
Definition format_address (address : string) (length : Z) : string :=
  if Z.of_nat (String.length address) <=? length * 2 then address
  else
    (string_of_list_ascii (slice_to (list_ascii_of_string address) length)
     ++ "..."
     ++ string_of_list_ascii (slice_from (list_ascii_of_string address) (- length)))%string.

Definition is_GetAccountInfo (c : Call) : bool :=
  match c with
  | CGetAccountInfo _ => true
  | _ => false
  end.

Definition account_lookups {W} (s : State W) : list Call :=
  filter is_GetAccountInfo (calls s).

(** What a scan of [three_mints] ends with. *)
Definition three_mints_scan : PyDict.t TokenEntry :=
  map (fun '(a, n) =>
         (a, {| count := n;
                metadata := {| address := a; supply := 1000; decimals := 9 |} |}))
      [("A", 1); ("B", 2); ("C", 1)].

(** *** Ledgers and clients against the reading of two claims *)

(** One transfer from ["addr1"] to ["addr2"] whose message answers
    [is_to_wallet] with true for every wallet. *)
Definition says_to_everyone : Ledger :=
  {| samples := []; blocks := []; mints := []; balances := [];
     token_accounts := token_accounts empty_ledger;
     history := [ signed "sig1" 1700000100
                    (Some {| account_keys := ["addr1"; "addr2"];
                             instructions := [ {| data_amount := 1000000000 |} ];
                             is_to_wallet := fun _ => true |}) ];
     faucet := None |}.

(** [c], except for its answers to [get_signatures_for_address]. *)
Definition answering_signatures
           (f : string -> Z -> option string -> unit -> Res (list SignatureInfo) * unit)
           (c : Client.t unit) : Client.t unit :=
  {| Client.get_recent_performance_samples := Client.get_recent_performance_samples c;
     Client.get_block := Client.get_block c;
     Client.get_account_info := Client.get_account_info c;
     Client.get_mint_info := Client.get_mint_info c;
     Client.get_balance := Client.get_balance c;
     Client.post := Client.post c;
     Client.get_signatures_for_address := f;
     Client.get_transaction := Client.get_transaction c;
     Client.request_airdrop := Client.request_airdrop c;
     Client.confirm_transaction := Client.confirm_transaction c;
     Client.create_mint := Client.create_mint c |}.

(** A gateway that does not honour the limit: it answers with the whole
    history of [four_transfers]. *)
Definition overfull_client : Client.t unit :=
  answering_signatures
    (fun _ _ _ w => (Ok (map info (history four_transfers)), w))
    (ledger_client four_transfers).

(** A gateway that answers with at most [limit] signatures, and with
    signatures strictly before the cursor only, but not newest first: without
    a cursor the oldest signature comes first. *)
Definition unordered_client : Client.t unit :=
  answering_signatures
    (fun address limit before w =>
       match before with
       | None =>
           (if (1 <=? limit) && (limit <=? 1000)
            then Ok (map info (firstn (Z.to_nat limit)
                                 [ signed "sig1" 1700000100
                                          (Some (transfer "addr1" "addr3" 1000000000));
                                   signed "sig4" 1700000400
                                          (Some (transfer "addr2" "addr1" 4000000000));
                                   signed "sig3" 1700000300
                                          (Some (transfer "addr1" "addr2" 3000000000));
                                   signed "sig2" 1700000200
                                          (Some (transfer "addr3" "addr1" 2000000000)) ]))
            else Raise (ClientError "Invalid limit; max 1000"), w)
       | Some _ =>
           Client.get_signatures_for_address (ledger_client four_transfers)
                                             address limit before w
       end)
    (ledger_client four_transfers).

(* ================================================================== *)
(** * Properties *)

(** ** Dictionaries *)

Lemma PyDict_get_set_same {V} (d : PyDict.t V) (k : string) (v : V) :
  PyDict.get (PyDict.set d k v) k = Some v.
Proof.
  induction d as [|[k' v'] d IH]; simpl.
  - now rewrite String.eqb_refl.
  - destruct (String.eqb k' k) eqn:E; simpl; rewrite E; auto.
Qed.

Lemma PyDict_keys_set {V} (d : PyDict.t V) (k : string) (v : V) :
  PyDict.keys (PyDict.set d k v) =
  if PyDict.contains d k then PyDict.keys d else (PyDict.keys d ++ [k])%list.
Proof.
  unfold PyDict.contains.
  induction d as [|[k' v'] d IH]; simpl; auto.
  destruct (String.eqb k' k) eqn:E; simpl; auto.
  rewrite IH. now destruct (PyDict.get d k).
Qed.

Lemma PyDict_contains_In {V} (d : PyDict.t V) (k : string) :
  PyDict.contains d k = true <-> In k (PyDict.keys d).
Proof.
  unfold PyDict.contains.
  induction d as [|[k' v'] d IH]; simpl.
  - split; [discriminate | tauto].
  - destruct (String.eqb k' k) eqn:E.
    + apply String.eqb_eq in E. split; auto.
    + apply String.eqb_neq in E. rewrite IH. split; [auto | intros [H|H]; [contradiction | auto]].
Qed.

Lemma PyDict_set_NoDup {V} (d : PyDict.t V) (k : string) (v : V) :
  NoDup (PyDict.keys d) -> NoDup (PyDict.keys (PyDict.set d k v)).
Proof.
  intros H. rewrite PyDict_keys_set.
  destruct (PyDict.contains d k) eqn:E; auto.
  assert (~ In k (PyDict.keys d)) as Hk.
  { rewrite <- PyDict_contains_In. congruence. }
  clear E. induction (PyDict.keys d) as [|k' ks IH]; simpl.
  - constructor; [tauto | constructor].
  - inversion H; subst. constructor.
    + rewrite in_app_iff. simpl. intros [?|[?|[]]]; [tauto | subst; apply Hk; now left].
    + apply IH; auto. intros ?. apply Hk. now right.
Qed.

(** ** [create_wallet], [get_wallet], [get_wallets] *)

Lemma create_wallet_run {W} (solders : Solders.t) (seed_bytes : list byte)
      (wallet_data : WalletCreate.t) (s : State W) :
  create_wallet solders seed_bytes wallet_data s =
    (Raise (HTTPException 500 (Str (ValidationError "WalletResponse" ["private_key"]))),
     {| wallets :=
          PyDict.set (wallets s) (Solders.Keypair_pubkey solders seed_bytes)
            {| Wallet.public_key := Solders.Keypair_pubkey solders seed_bytes;
               Wallet.private_key := hex seed_bytes;
               Wallet.name := WalletCreate.name wallet_data |};
        remote := remote s;
        calls := calls s |}).
Proof. reflexivity. Qed.

(** C10. [create_wallet] writes the new wallet, secret seed included, into
    [wallets] before it builds its response; the response then fails to
    validate ([WalletResponse] requires [private_key], which is not passed),
    the handler answers with status 500, and the wallet stays in the store. *)
Theorem create_wallet_stores_before_failing :
  forall (W : Type) (solders : Solders.t) (seed_bytes : list byte)
         (wallet_data : WalletCreate.t) (s : State W),
    let public_key := Solders.Keypair_pubkey solders seed_bytes in
    let wallet := {| Wallet.public_key := public_key;
                     Wallet.private_key := hex seed_bytes;
                     Wallet.name := WalletCreate.name wallet_data |} in
    let s' := snd (create_wallet solders seed_bytes wallet_data s) in
    fst (create_wallet solders seed_bytes wallet_data s) =
      Raise (HTTPException 500 (Str (ValidationError "WalletResponse" ["private_key"])))
    /\ PyDict.get (wallets s') public_key = Some wallet
    /\ remote s' = remote s
    /\ calls s' = calls s.
Proof.
  intros. subst s'. rewrite create_wallet_run. simpl. repeat split.
  apply PyDict_get_set_same.
Qed.

Lemma PyDict_set_In_values {V} (d : PyDict.t V) (k : string) (v : V) :
  In v (PyDict.values (PyDict.set d k v)).
Proof.
  unfold PyDict.values.
  induction d as [|[k' v'] d IH]; simpl; auto.
  destruct (String.eqb k' k); simpl; auto.
Qed.

(** Stored wallets always validate against [WalletResponse]. *)
Lemma WalletResponses_of_dicts_map (ws : list Wallet.t) :
  WalletResponses_of_dicts ws
  = Ok (map (fun w => {| WalletResponse.private_key := Wallet.private_key w;
                         WalletResponse.public_key := Wallet.public_key w;
                         WalletResponse.name := Wallet.name w |}) ws).
Proof.
  induction ws as [|w ws IH]; simpl; auto. now rewrite IH.
Qed.

(** C1 (the code at the failing input, in general form). Once a wallet has
    been created from a seed, [get_wallet] on its public key answers with
    the hex of that seed in [private_key], and [get_wallets] lists it. *)
Theorem get_wallet_returns_private_key :
  forall (W : Type) (solders : Solders.t) (seed_bytes : list byte)
         (wallet_data : WalletCreate.t) (s : State W),
    let public_key := Solders.Keypair_pubkey solders seed_bytes in
    let leaked := {| WalletResponse.private_key := hex seed_bytes;
                     WalletResponse.public_key := public_key;
                     WalletResponse.name := WalletCreate.name wallet_data |} in
    let s' := snd (create_wallet solders seed_bytes wallet_data s) in
    fst (get_wallet public_key s') = Ok leaked /\
    exists responses, fst (get_wallets s') = Ok responses /\ In leaked responses.
Proof.
  intros. subst s'. rewrite create_wallet_run. simpl.
  unfold get_wallet, get_wallets, bind, read_wallets, lift. simpl.
  rewrite PyDict_get_set_same. split; [reflexivity|].
  rewrite WalletResponses_of_dicts_map. eexists. split; [reflexivity|].
  apply in_map_iff. eexists. split; [|apply PyDict_set_In_values]. reflexivity.
Qed.

Example get_wallet_returns_private_key_example :
  fst (get_wallet (hex seed_42)
         (snd (create_wallet plain_solders seed_42 {| WalletCreate.name := "main" |}
                 (start [] tt))))
  = Ok {| WalletResponse.private_key :=
            "2a2a2a2a2a2a2a2a2a2a2a2a2a2a2a2a2a2a2a2a2a2a2a2a2a2a2a2a2a2a2a2a";
          WalletResponse.public_key := hex seed_42;
          WalletResponse.name := "main" |}.
Proof. reflexivity. Qed.

(** ** [get_trending_tokens]: blocks that are all unavailable *)

Lemma slice_to_nil {A} (stop : Z) : slice_to (@nil A) stop = [].
Proof. unfold slice_to. destruct (0 <=? stop); apply firstn_nil. Qed.

Lemma scan_slots_unavailable {W} (client : Client.t W) :
  (forall slot w, exists w', Client.get_block client slot w = (Ok None, w')) ->
  forall slots token_transactions s,
  exists s', for_each slots token_transactions (scan_slot client) s = (Ok token_transactions, s').
Proof.
  intros Hnone slots. induction slots as [|slot slots IH]; intros d s; simpl.
  - now exists s.
  - unfold bind at 1. unfold scan_slot at 1. unfold bind, rpc.
    destruct (Hnone slot (remote s)) as [w' ->]. simpl. apply IH.
Qed.

(** C2, as amended. When the performance samples are not empty and every
    block fetch answers "no block", [get_trending_tokens] succeeds with the
    empty list. *)
Theorem get_trending_tokens_no_blocks_is_empty_success :
  forall (W : Type) (client : Client.t W) (limit : Z) (s : State W)
         (performance_samples : list PerfSample) (w1 : W),
    Client.get_recent_performance_samples client 5 (remote s)
      = (Ok performance_samples, w1) ->
    performance_samples <> [] ->
    (forall slot w, exists w', Client.get_block client slot w = (Ok None, w')) ->
    fst (get_trending_tokens client limit s) = Ok [].
Proof.
  intros W client limit s ps w1 Hs Hne Hnone.
  unfold get_trending_tokens, try_except, scan_recent_blocks.
  unfold bind at 1. unfold bind at 1. unfold rpc at 1.
  rewrite Hs. destruct ps as [|p ps]; [congruence|].
  match goal with
  | |- context [for_each ?l ?d ?b ?st] =>
      destruct (scan_slots_unavailable client Hnone l d st) as [s' ->]
  end.
  unfold ret, sorted_tokens, PyDict.items, PyDict.empty. simpl.
  now rewrite slice_to_nil.
Qed.

Lemma get_trending_tokens_no_blocks_witness :
  fst (get_trending_tokens (ledger_client one_sample_no_block) 10 (start [] tt)) = Ok [].
Proof.
  apply (get_trending_tokens_no_blocks_is_empty_success unit
           (ledger_client one_sample_no_block) 10 (start [] tt) [ {| slot := 7 |} ] tt).
  - reflexivity.
  - discriminate.
  - intros slot w. exists w. reflexivity.
Defined.

(** C2, as stated, fails: one sample (slot 7), its block unavailable, and
    the handler answers with an empty list instead of raising. *)
Lemma get_trending_tokens_no_blocks_counterexample :
  samples one_sample_no_block <> [] /\
  block_at (blocks one_sample_no_block) 7 = None /\
  fst (get_trending_tokens (ledger_client one_sample_no_block) 10 (start [] tt)) = Ok [] /\
  ~ (exists e, fst (get_trending_tokens (ledger_client one_sample_no_block) 10 (start [] tt))
               = Raise e).
Proof.
  assert (fst (get_trending_tokens (ledger_client one_sample_no_block) 10 (start [] tt))
          = Ok []) as H by reflexivity.
  repeat split; auto.
  - discriminate.
  - intros [e He]. rewrite H in He. discriminate.
Qed.


(** ** Loops *)

(** A property of the loop variable that the body keeps is kept by the loop. *)
Lemma for_each_invariant {W A B} (P : B -> Prop) (body : A -> B -> M W B) (xs : list A) :
  (forall x acc s acc' s', P acc -> body x acc s = (Ok acc', s') -> P acc') ->
  forall acc s acc' s',
    P acc -> for_each xs acc body s = (Ok acc', s') -> P acc'.
Proof.
  intros Hbody. induction xs as [|x xs IH]; intros acc s acc' s' HP Hrun; simpl in Hrun.
  - unfold ret in Hrun. now inversion Hrun; subst.
  - unfold bind in Hrun. destruct (body x acc s) as [[acc1|e] s1] eqn:E; [|discriminate].
    eapply IH; [|exact Hrun]. eapply Hbody; eauto.
Qed.

(** ** [sorted(..., reverse=True)] and the slice *)

Section SortedReverseMembers.
Context {A : Type} (key : A -> Z).

Lemma insert_desc_In (x : A) (l : list A) (z : A) :
  In z (insert_desc key x l) <-> z = x \/ In z l.
Proof.
  induction l as [|y l IH]; simpl.
  - intuition.
  - destruct (key y <=? key x); simpl; [intuition|]. rewrite IH. intuition.
Qed.

Lemma sorted_reverse_In (l : list A) (z : A) :
  In z (sorted_reverse key l) <-> In z l.
Proof.
  induction l as [|x l IH]; simpl; [tauto|].
  rewrite insert_desc_In, IH. intuition.
Qed.

Lemma insert_desc_length (x : A) (l : list A) :
  List.length (insert_desc key x l) = S (List.length l).
Proof.
  induction l as [|y l IH]; simpl; auto.
  destruct (key y <=? key x); simpl; auto.
Qed.

Lemma sorted_reverse_length (l : list A) :
  List.length (sorted_reverse key l) = List.length l.
Proof.
  induction l as [|x l IH]; simpl; auto.
  now rewrite insert_desc_length, IH.
Qed.

End SortedReverseMembers.

Section SortedReverseRank.
Context {A : Type} (key : A -> Z) (pos : A -> nat).

Lemma insert_desc_sorted (x : A) (l : list A) :
  StronglySorted (before key pos) l ->
  Forall (fun y => (pos x < pos y)%nat) l ->
  StronglySorted (before key pos) (insert_desc key x l).
Proof.
  induction l as [|y l IH]; intros Hs Hpos; simpl.
  - constructor; constructor.
  - inversion Hs as [|? ? Hs' Hy]; subst.
    inversion Hpos as [|? ? Hxy Hpos']; subst.
    destruct (key y <=? key x) eqn:E.
    + apply Z.leb_le in E. constructor; [exact Hs|].
      constructor.
      * unfold before. lia.
      * rewrite Forall_forall in *. intros z Hz.
        specialize (Hy z Hz). specialize (Hpos' z Hz).
        unfold before in *. lia.
    + apply Z.leb_gt in E. constructor; [now apply IH|].
      rewrite Forall_forall in *. intros z Hz.
      apply insert_desc_In in Hz. destruct Hz as [->|Hz]; [|now apply Hy].
      unfold before. lia.
Qed.

(** Sorting a list that is in position order ranks it. *)
Lemma sorted_reverse_sorted (l : list A) :
  StronglySorted (fun a b => (pos a < pos b)%nat) l ->
  StronglySorted (before key pos) (sorted_reverse key l).
Proof.
  induction l as [|x l IH]; intros Hs; simpl.
  - constructor.
  - inversion Hs as [|? ? Hs' Hx]; subst.
    apply insert_desc_sorted; [now apply IH|].
    apply Forall_forall. intros z Hz. apply (proj1 (sorted_reverse_In _ _ _)) in Hz.
    rewrite Forall_forall in Hx. now apply Hx.
Qed.
End SortedReverseRank.

Lemma firstn_In {A} (n : nat) (l : list A) (z : A) :
  In z (firstn n l) -> In z l.
Proof.
  revert l. induction n as [|n IH]; intros [|x l]; simpl; try tauto.
  intros [H|H]; auto.
Qed.

Lemma StronglySorted_firstn {A} (R : A -> A -> Prop) (n : nat) (l : list A) :
  StronglySorted R l -> StronglySorted R (firstn n l).
Proof.
  revert l. induction n as [|n IH]; intros l Hs; simpl; [constructor|].
  destruct l as [|x l]; [constructor|].
  inversion Hs; subst. constructor; [now apply IH|].
  rewrite Forall_forall in *. intros z Hz. apply H2. eapply firstn_In; eauto.
Qed.

Lemma slice_to_firstn {A} (xs : list A) (stop : Z) :
  0 <= stop -> slice_to xs stop = firstn (Z.to_nat stop) xs.
Proof. intros H. unfold slice_to. apply Z.leb_le in H. now rewrite H. Qed.

(** A list without repetition is in the order of its positions. *)
Lemma position_sorted (ks : list string) :
  NoDup ks ->
  StronglySorted (fun a b => (position a ks < position b ks)%nat) ks.
Proof.
  induction ks as [|k ks IH]; intros Hnd; [constructor|].
  inversion Hnd as [|? ? Hk Hnd']; subst.
  assert (forall z, In z ks -> String.eqb k z = false) as Hne.
  { intros z Hz. apply String.eqb_neq. intros ->. contradiction. }
  constructor.
  - specialize (IH Hnd').
    assert (forall l, (forall z, In z l -> In z ks) ->
            StronglySorted (fun a b => (position a ks < position b ks)%nat) l ->
            StronglySorted (fun a b => (position a (k :: ks) < position b (k :: ks))%nat) l)
      as Hlift.
    { induction l as [|a l IHl]; intros Hin Hs; [constructor|].
      inversion Hs; subst. constructor.
      - apply IHl; auto. intros z Hz. apply Hin. now right.
      - rewrite Forall_forall in *. intros z Hz. simpl.
        rewrite (Hne a), (Hne z); [|apply Hin; now right|apply Hin; now left].
        specialize (H2 z Hz). lia. }
    apply Hlift; auto.
  - rewrite Forall_forall. intros z Hz. simpl.
    rewrite String.eqb_refl, (Hne z Hz). lia.
Qed.

Lemma StronglySorted_map {A B} (f : A -> B) (R : B -> B -> Prop) (l : list A) :
  StronglySorted R (map f l) <-> StronglySorted (fun a b => R (f a) (f b)) l.
Proof.
  induction l as [|x l IH]; simpl.
  - split; constructor.
  - split; intros H; inversion H; subst; constructor; try (now apply IH).
    + rewrite Forall_forall in *. intros z Hz. apply H3. now apply in_map.
    + rewrite Forall_forall in *. intros z Hz. apply in_map_iff in Hz.
      destruct Hz as (a & <- & Ha). now apply H3.
Qed.

(** ** [get_trending_tokens]: the ranking *)

Lemma scan_account_NoDup {W} (client : Client.t W) account d s d' s' :
  NoDup (PyDict.keys d) ->
  scan_account client account d s = (Ok d', s') ->
  NoDup (PyDict.keys d').
Proof.
  intros Hnd. unfold scan_account, bind.
  destruct (get_token_metadata client account s) as [[[info|]|e] s1]; try discriminate.
  - destruct (negb (PyDict.contains d account)).
    + rewrite PyDict_get_set_same. unfold ret. intros H; inversion H; subst.
      now repeat apply PyDict_set_NoDup.
    + destruct (PyDict.get d account); unfold ret, raise; intros H; inversion H; subst.
      now apply PyDict_set_NoDup.
  - unfold ret. intros H; inversion H; now subst.
Qed.

Lemma scan_slot_NoDup {W} (client : Client.t W) slot d s d' s' :
  NoDup (PyDict.keys d) ->
  scan_slot client slot d s = (Ok d', s') ->
  NoDup (PyDict.keys d').
Proof.
  intros Hnd. unfold scan_slot, bind.
  destruct (rpc _ _ s) as [[[block|]|e] s1]; try discriminate.
  - apply (for_each_invariant (fun d => NoDup (PyDict.keys d))); auto.
    intros tx acc s2 acc' s2' Hacc. unfold scan_transaction.
    destruct (existsb _ _).
    + apply (for_each_invariant (fun d => NoDup (PyDict.keys d))); auto.
      intros; eapply scan_account_NoDup; eauto.
    + unfold ret. intros H; inversion H; now subst.
  - unfold ret. intros H; inversion H; now subst.
Qed.

Lemma scan_recent_blocks_NoDup {W} (client : Client.t W) s d s' :
  scan_recent_blocks client s = (Ok d, s') -> NoDup (PyDict.keys d).
Proof.
  unfold scan_recent_blocks, bind.
  destruct (rpc _ _ s) as [[[|p ps]|e] s1]; try discriminate.
  apply (for_each_invariant (fun d => NoDup (PyDict.keys d))).
  - intros; eapply scan_slot_NoDup; eauto.
  - constructor.
Qed.

Lemma items_ranked (d : PyDict.t TokenEntry) :
  NoDup (PyDict.keys d) ->
  StronglySorted (ranks_before d)
    (sorted_reverse (fun x => count (snd x)) (PyDict.items d)).
Proof.
  intros Hnd.
  apply (sorted_reverse_sorted (fun x => count (snd x))
           (fun x => position (fst x) (PyDict.keys d))).
  apply (StronglySorted_map fst (fun a b => (position a (PyDict.keys d)
                                             < position b (PyDict.keys d))%nat)).
  now apply position_sorted.
Qed.

(** A sighting leaves the order of the addresses seen so far and, when the
    address is new, puts it last: the order of the keys is first-seen order. *)
Lemma scan_account_first_seen {W} (client : Client.t W) account d s d' s' :
  scan_account client account d s = (Ok d', s') ->
  PyDict.keys d' = PyDict.keys d \/
  (~ In account (PyDict.keys d) /\ PyDict.keys d' = (PyDict.keys d ++ [account])%list).
Proof.
  unfold scan_account, bind.
  destruct (get_token_metadata client account s) as [[[info|]|e] s1]; try discriminate.
  - destruct (PyDict.contains d account) eqn:E; cbn [negb].
    + destruct (PyDict.get d account); unfold ret, raise; intros H; inversion H; subst.
      left. now rewrite PyDict_keys_set, E.
    + rewrite PyDict_get_set_same. unfold ret. intros H; inversion H; subst.
      right. split.
      * rewrite <- PyDict_contains_In. congruence.
      * rewrite !PyDict_keys_set, E.
        assert (PyDict.contains (PyDict.set d account {| count := 0; metadata := info |})
                                account = true) as ->; auto.
        unfold PyDict.contains. now rewrite PyDict_get_set_same.
  - unfold ret. intros H; inversion H; subst. now left.
Qed.

(** C4. For a limit that is not negative, a successful [get_trending_tokens]
    answers with the first [limit] items of the scan's dictionary after the
    ranking: at most [limit] tokens, every one an address the scan counted,
    larger counts first and, among equal counts, the address seen first. *)
Theorem get_trending_tokens_ranked :
  forall (W : Type) (client : Client.t W) (limit : Z) (s s' : State W)
         (tokens : list TokenX.t),
    0 <= limit ->
    get_trending_tokens client limit s = (Ok tokens, s') ->
    exists token_transactions : PyDict.t TokenEntry,
      scan_recent_blocks client s = (Ok token_transactions, s') /\
      tokens = map unknown_token (sorted_tokens token_transactions limit) /\
      Z.of_nat (List.length tokens) <= limit /\
      List.length tokens
        = Nat.min (Z.to_nat limit) (List.length (PyDict.items token_transactions)) /\
      (forall x, In x (sorted_tokens token_transactions limit) ->
                 In x (PyDict.items token_transactions)) /\
      StronglySorted (ranks_before token_transactions)
                     (sorted_tokens token_transactions limit).
Proof.
  intros W client limit s s' tokens Hlimit Hrun.
  unfold get_trending_tokens, try_except, bind in Hrun.
  destruct (scan_recent_blocks client s) as [[d|e] s1] eqn:Hscan;
    [|unfold raise in Hrun; discriminate].
  unfold ret in Hrun. inversion Hrun; subst. clear Hrun.
  exists d. unfold sorted_tokens. rewrite slice_to_firstn by assumption.
  assert (List.length (map unknown_token
            (firstn (Z.to_nat limit)
               (sorted_reverse (fun x => count (snd x)) (PyDict.items d))))
          = Nat.min (Z.to_nat limit) (List.length (PyDict.items d))) as Hlen.
  { now rewrite length_map, length_firstn, sorted_reverse_length. }
  repeat split; auto.
  - rewrite Hlen. lia.
  - intros x Hx. apply firstn_In in Hx.
    now apply (proj1 (sorted_reverse_In _ _ _)) in Hx.
  - apply StronglySorted_firstn, items_ranked.
    eapply scan_recent_blocks_NoDup; eauto.
Qed.

Lemma get_trending_tokens_ranked_witness :
  exists token_transactions : PyDict.t TokenEntry,
    scan_recent_blocks (ledger_client three_mints) (start [] tt)
      = (Ok token_transactions,
         snd (get_trending_tokens (ledger_client three_mints) 2 (start [] tt))) /\
    [ TokenX.init "Unknown" "Unknown" "B" (Some 0%float);
      TokenX.init "Unknown" "Unknown" "A" (Some 0%float) ]
      = map unknown_token (sorted_tokens token_transactions 2) /\
    Z.of_nat 2 <= 2 /\
    2%nat = Nat.min (Z.to_nat 2) (List.length (PyDict.items token_transactions)) /\
    (forall x, In x (sorted_tokens token_transactions 2) ->
               In x (PyDict.items token_transactions)) /\
    StronglySorted (ranks_before token_transactions) (sorted_tokens token_transactions 2).
Proof.
  apply (get_trending_tokens_ranked unit (ledger_client three_mints) 2 (start [] tt)
           (snd (get_trending_tokens (ledger_client three_mints) 2 (start [] tt)))
           [ TokenX.init "Unknown" "Unknown" "B" (Some 0%float);
             TokenX.init "Unknown" "Unknown" "A" (Some 0%float) ]).
  - lia.
  - vm_compute. reflexivity.
Defined.

(** ** [create_custom_token]: an airdrop answered without a signature *)

(** C5. When the balance read succeeds and the airdrop request is answered
    without a signature, [create_custom_token] ends with the airdrop failure
    (status 500); the run made two calls, the balance read and the airdrop
    request, and none of them creates a mint. *)
Theorem create_custom_token_airdrop_without_signature :
  forall (W : Type) (solders : Solders.t) (client : Client.t W)
         (seed_bytes : list byte) (token_data : CustomToken.t) (s : State W)
         (balance : option Z) (w1 w2 : W),
    let mint_authority := Solders.Keypair_pubkey solders seed_bytes in
    Solders.Pubkey_valid solders mint_authority = true ->
    Client.get_balance client mint_authority (remote s) = (Ok balance, w1) ->
    Client.request_airdrop client mint_authority 1000000000 w1 = (Ok None, w2) ->
    exists made : list Call,
      create_custom_token solders client seed_bytes token_data s =
        (Raise airdrop_failed,
         {| wallets := wallets s; remote := w2; calls := (calls s ++ made)%list |}) /\
      made = [CGetBalance mint_authority; CRequestAirdrop mint_authority 1000000000] /\
      existsb is_CreateMint made = false.
Proof.
  intros W solders client seed_bytes token_data s balance w1 w2 pk Hvalid Hbal Hair.
  exists [CGetBalance pk; CRequestAirdrop pk 1000000000].
  split; [|split; reflexivity].
  unfold create_custom_token, try_except. fold pk.
  unfold bind at 1. unfold rpc at 1. rewrite Hbal.
  unfold bind at 1. unfold request_airdrop, try_except.
  unfold bind at 1. unfold lift, Pubkey_from_string. rewrite Hvalid.
  unfold bind at 1. unfold rpc at 1. cbn [remote]. rewrite Hair.
  unfold raise. cbn [wallets calls]. rewrite <- app_assoc. reflexivity.
Qed.

Lemma create_custom_token_airdrop_without_signature_witness :
  exists made : list Call,
    create_custom_token plain_solders (ledger_client empty_ledger) seed_42 demo_token
                        (start [] tt) =
      (Raise airdrop_failed,
       {| wallets := []; remote := tt; calls := ([] ++ made)%list |}) /\
    made = [CGetBalance (hex seed_42); CRequestAirdrop (hex seed_42) 1000000000] /\
    existsb is_CreateMint made = false.
Proof.
  apply (create_custom_token_airdrop_without_signature unit plain_solders
           (ledger_client empty_ledger) seed_42 demo_token (start [] tt) (Some 0) tt tt);
    reflexivity.
Defined.

(** ** [get_wallet_balance] *)

Lemma getitem_contains (v : json) (k : string) (x : json) :
  getitem v k = Ok x -> contains k v = Ok true.
Proof.
  destruct v; simpl; try discriminate.
  unfold PyDict.contains. destruct (PyDict.get entries k); [auto|discriminate].
Qed.

(** An answer that carries the list [accounts] under ["result"]["value"]. *)
Lemma token_balances_of_value (token_response_data result : json) (accounts : list json) :
  getitem token_response_data "result" = Ok result ->
  getitem result "value" = Ok (JList accounts) ->
  token_balances_of token_response_data = parse_token_accounts accounts [].
Proof.
  intros Hr Hv. unfold token_balances_of.
  rewrite (getitem_contains _ _ _ Hr). simpl.
  rewrite Hr. simpl. rewrite (getitem_contains _ _ _ Hv). simpl.
  rewrite Hv. reflexivity.
Qed.

(** [TokenBalance(...)] is called without [symbol]: no entry ever parses. *)
Lemma parse_token_account_never_succeeds (account : json) :
  exists e, parse_token_account account = Raise e.
Proof.
  unfold parse_token_account, and_then.
  repeat match goal with
         | |- context [match getitem ?v ?k with _ => _ end] =>
             destruct (getitem v k); [|eexists; reflexivity]
         end.
  unfold TokenBalance.init, validate_str.
  match goal with
  | |- context [validate_float ?f ?v] => destruct (validate_float f v)
  end; eexists; reflexivity.
Qed.

(** Entries that are all malformed are all skipped. *)
Lemma parse_token_accounts_malformed (accounts : list json) (acc : list TokenBalance.t) :
  forallb malformed accounts = true ->
  parse_token_accounts accounts acc = Ok acc.
Proof.
  induction accounts as [|a accounts IH]; simpl; auto.
  intros H. apply andb_true_iff in H. destruct H as [Ha Hrest].
  unfold malformed in Ha. destruct (parse_token_account a); [discriminate|].
  rewrite Ha. now apply IH.
Qed.

(** The handler after its two calls were answered. *)
Lemma get_wallet_balance_run {W} (solders : Solders.t) (client : Client.t W)
      (public_key : string) (s : State W) (value : Z)
      (token_response_data : json) (w1 w2 : W) :
  Solders.Pubkey_valid solders public_key = true ->
  Client.get_balance client public_key (remote s) = (Ok (Some value), w1) ->
  Client.post client (request_data public_key) w1 = (Ok token_response_data, w2) ->
  fst (get_wallet_balance solders client public_key s)
  = match token_balances_of token_response_data with
    | Ok token_balances =>
        Ok {| WalletBalance.sol_balance := lamports_to_sol value;
              WalletBalance.usd_value := None;
              WalletBalance.tokens := token_balances |}
    | Raise e => Raise (HTTPException 500 (Str e))
    end.
Proof.
  intros Hvalid Hbal Hpost.
  unfold get_wallet_balance, try_except.
  unfold bind at 1. unfold lift at 1, Pubkey_from_string. rewrite Hvalid.
  unfold bind at 1. unfold rpc at 1. rewrite Hbal.
  unfold bind at 1. unfold rpc at 1. cbn [remote]. rewrite Hpost.
  unfold bind, lift, ret, raise.
  destruct (token_balances_of token_response_data); reflexivity.
Qed.

Lemma holder_run (public_key : string) (value : Z) (accounts : list json) :
  fst (get_wallet_balance plain_solders (ledger_client (holder public_key value accounts))
                          public_key (start [] tt))
  = match parse_token_accounts accounts [] with
    | Ok token_balances =>
        Ok {| WalletBalance.sol_balance := lamports_to_sol value;
              WalletBalance.usd_value := None;
              WalletBalance.tokens := token_balances |}
    | Raise e => Raise (HTTPException 500 (Str e))
    end.
Proof.
  rewrite (get_wallet_balance_run plain_solders _ public_key (start [] tt) value
             (token_accounts (holder public_key value accounts)) tt tt).
  - now rewrite (token_balances_of_value _ (accounts_result accounts) accounts).
  - reflexivity.
  - simpl. now rewrite String.eqb_refl.
  - reflexivity.
Qed.

(** The part of C3 that the handler keeps: with a defined native balance
    and token accounts that are all malformed (or none), the answer carries
    the native balance and no token. *)
Lemma get_wallet_balance_skips_malformed
      (public_key : string) (value : Z) (accounts : list json) :
  forallb malformed accounts = true ->
  fst (get_wallet_balance plain_solders (ledger_client (holder public_key value accounts))
                          public_key (start [] tt))
  = Ok {| WalletBalance.sol_balance := lamports_to_sol value;
          WalletBalance.usd_value := None;
          WalletBalance.tokens := [] |}.
Proof.
  intros H. rewrite holder_run. now rewrite parse_token_accounts_malformed.
Qed.

(** C3 (the code at the failing input, for any address, balance, mint and
    amount). With a defined native balance and one well-formed token account
    the handler raises: [TokenBalance] rejects the missing [symbol], the
    inner [except] does not catch that, and the outer one answers 500. *)
Theorem get_wallet_balance_fails_on_a_token_account :
  forall (public_key mint : string) (value : Z) (ui_amount : json),
  exists fields : list string,
    fst (get_wallet_balance plain_solders
           (ledger_client (holder public_key value [token_account mint ui_amount]))
           public_key (start [] tt))
    = Raise (HTTPException 500 (Str (ValidationError "TokenBalance" ("symbol" :: fields)))).
Proof.
  intros public_key mint value ui_amount.
  rewrite holder_run. cbn [parse_token_accounts].
  assert (parse_token_account (token_account mint ui_amount)
          = TokenBalance.init None (Some ui_amount) None) as -> by reflexivity.
  unfold TokenBalance.init, validate_str.
  destruct (validate_float "balance" (Some ui_amount)); eexists; reflexivity.
Qed.

(** C8. An address with a native balance of 2_500_000_000 lamports and an
    empty list of token accounts gets [sol_balance = 2.5], no USD value and
    no tokens. *)
Theorem get_wallet_balance_two_and_a_half_sol :
  forall (W : Type) (solders : Solders.t) (client : Client.t W)
         (public_key : string) (s : State W)
         (token_response_data result : json) (w1 w2 : W),
    Solders.Pubkey_valid solders public_key = true ->
    Client.get_balance client public_key (remote s) = (Ok (Some 2500000000), w1) ->
    Client.post client (request_data public_key) w1 = (Ok token_response_data, w2) ->
    getitem token_response_data "result" = Ok result ->
    getitem result "value" = Ok (JList []) ->
    fst (get_wallet_balance solders client public_key s)
    = Ok {| WalletBalance.sol_balance := 2.5%float;
            WalletBalance.usd_value := None;
            WalletBalance.tokens := [] |}.
Proof.
  intros W solders client public_key s data result w1 w2 Hvalid Hbal Hpost Hr Hv.
  rewrite (get_wallet_balance_run solders client public_key s 2500000000 data w1 w2)
    by assumption.
  rewrite (token_balances_of_value _ _ [] Hr Hv). reflexivity.
Qed.

Lemma get_wallet_balance_two_and_a_half_sol_witness :
  fst (get_wallet_balance plain_solders (ledger_client (holder "addr1" 2500000000 []))
                          "addr1" (start [] tt))
  = Ok {| WalletBalance.sol_balance := 2.5%float;
          WalletBalance.usd_value := None;
          WalletBalance.tokens := [] |}.
Proof.
  apply (get_wallet_balance_two_and_a_half_sol unit plain_solders
           (ledger_client (holder "addr1" 2500000000 [])) "addr1" (start [] tt)
           (token_accounts (holder "addr1" 2500000000 []))
           (accounts_result []) tt tt);
    reflexivity.
Defined.

(** ** [get_wallet_transactions] *)

Lemma record_of_signature public_key si tx r :
  record_of public_key si tx = Ok r -> Transaction.signature r = signature si.
Proof.
  unfold record_of, and_then.
  destruct (item _ 0); [|discriminate].
  destruct (datetime_fromtimestamp _); [|discriminate].
  destruct (item _ 0); [|discriminate].
  destruct (item _ 1); [|discriminate].
  intros H; inversion H; reflexivity.
Qed.

Lemma record_of_type public_key si tx r :
  record_of public_key si tx = Ok r ->
  Transaction.type r = if is_to_wallet tx public_key then "receive" else "send".
Proof.
  unfold record_of, and_then.
  destruct (item _ 0); [|discriminate].
  destruct (datetime_fromtimestamp _); [|discriminate].
  destruct (item _ 0); [|discriminate].
  destruct (item _ 1); [|discriminate].
  intros H; inversion H; reflexivity.
Qed.

(** What the loop returns is what it was given, then a [built_from] list. *)
Lemma for_each_transaction_of {W} (client : Client.t W) (public_key : string)
      (sigs : list SignatureInfo) :
  forall acc s out s',
    for_each sigs acc (transaction_of client public_key) s = (Ok out, s') ->
    exists kept, out = (acc ++ kept)%list /\ built_from client public_key sigs kept.
Proof.
  induction sigs as [|si sigs IH]; intros acc s out s' Hrun; simpl in Hrun.
  - unfold ret in Hrun. inversion Hrun; subst.
    exists []. split; [now rewrite app_nil_r | constructor].
  - unfold bind at 1 in Hrun. unfold transaction_of at 1 in Hrun.
    unfold bind at 1 in Hrun. unfold rpc at 1 in Hrun.
    destruct (Client.get_transaction client (signature si) (remote s))
      as [[[tx|]|e] w'] eqn:Htx; try discriminate.
    + unfold bind, lift at 1 in Hrun.
      destruct (record_of public_key si tx) as [r|e] eqn:Hr; [|discriminate].
      unfold ret at 1 in Hrun. apply IH in Hrun. destruct Hrun as (kept & -> & Hb).
      exists (r :: kept). split.
      * now rewrite <- app_assoc.
      * eapply built_keep; eauto.
    + unfold ret at 1 in Hrun. apply IH in Hrun. destruct Hrun as (kept & -> & Hb).
      exists kept. split; [reflexivity | now constructor].
Qed.

(** A successful [get_wallet_transactions]: the wallet is known, the gateway
    answered with [sigs], and the answer is built from them. *)
Lemma get_wallet_transactions_built {W} (solders : Solders.t) (client : Client.t W)
      public_key limit before (s s' : State W) txs :
  get_wallet_transactions solders client public_key limit before s = (Ok txs, s') ->
  exists sigs w1,
    Client.get_signatures_for_address client public_key limit before (remote s)
      = (Ok sigs, w1) /\
    built_from client public_key sigs txs.
Proof.
  unfold get_wallet_transactions. unfold bind at 1. unfold read_wallets.
  destruct (negb (PyDict.contains (wallets s) public_key)); [discriminate|].
  unfold try_except. unfold bind at 1. unfold lift, Pubkey_from_string.
  destruct (Solders.Pubkey_valid solders public_key); [|discriminate].
  unfold bind at 1. unfold rpc at 1.
  destruct (Client.get_signatures_for_address client public_key limit before (remote s))
    as [[sigs|e] w1] eqn:Hs; [|discriminate].
  destruct (for_each sigs [] (transaction_of client public_key) _) as [[out|e] s1] eqn:Hloop;
    [|discriminate].
  intros H; inversion H; subst.
  apply for_each_transaction_of in Hloop. destruct Hloop as (kept & -> & Hb).
  exists sigs, w1. split; auto.
Qed.

Lemma built_from_length {W} (client : Client.t W) public_key sigs txs :
  built_from client public_key sigs txs -> (List.length txs <= List.length sigs)%nat.
Proof. induction 1; simpl; lia. Qed.

Lemma built_from_In {W} (client : Client.t W) public_key sigs txs r :
  built_from client public_key sigs txs -> In r txs ->
  exists si tx w w',
    In si sigs /\
    Client.get_transaction client (signature si) w = (Ok (Some tx), w') /\
    record_of public_key si tx = Ok r.
Proof.
  induction 1 as [|si sigs txs Hb IH|si sigs txs tx r0 w w' Htx Hr Hb IH]; intros Hin.
  - destruct Hin.
  - destruct (IH Hin) as (si' & tx' & w1 & w2 & ? & ? & ?).
    exists si', tx', w1, w2. simpl. auto.
  - destruct Hin as [<-|Hin].
    + exists si, tx, w, w'. simpl. auto.
    + destruct (IH Hin) as (si' & tx' & w1 & w2 & ? & ? & ?).
      exists si', tx', w1, w2. simpl. auto.
Qed.

Lemma built_from_sorted {W} (client : Client.t W) public_key (R : string -> string -> Prop)
      sigs txs :
  built_from client public_key sigs txs ->
  StronglySorted R (map signature sigs) ->
  StronglySorted R (map Transaction.signature txs).
Proof.
  induction 1 as [|si sigs txs Hb IH|si sigs txs tx r0 w w' Htx Hr Hb IH];
    simpl; intros Hs.
  - constructor.
  - inversion Hs; subst. now apply IH.
  - inversion Hs as [|? ? Hs' Hall]; subst. constructor; [now apply IH|].
    rewrite (record_of_signature _ _ _ _ Hr).
    rewrite Forall_forall in *. intros z Hz. apply Hall.
    apply in_map_iff in Hz. destruct Hz as (r & <- & Hin).
    destruct (built_from_In client public_key sigs txs r Hb Hin)
      as (si' & tx' & w1 & w2 & Hsi & _ & Hr').
    rewrite (record_of_signature _ _ _ _ Hr'). now apply in_map.
Qed.

Lemma last_signature_In (page : list Transaction.t) (c : string) :
  last_signature page = Some c -> In c (map Transaction.signature page).
Proof.
  induction page as [|r page IH]; simpl; [discriminate|].
  destruct page as [|r' page].
  - intros H; inversion H. now left.
  - intros H. right. now apply IH.
Qed.

(** In a sorted page every record is the last one or stands before it. *)
Lemma last_signature_bound (R : string -> string -> Prop)
      (page : list Transaction.t) (c : string) :
  StronglySorted R (map Transaction.signature page) ->
  last_signature page = Some c ->
  forall r, In r page -> Transaction.signature r = c \/ R (Transaction.signature r) c.
Proof.
  induction page as [|r0 page IH]; intros Hs Hlast r Hin; [destruct Hin|].
  destruct page as [|r1 page].
  - destruct Hin as [<-|[]]. simpl in Hlast. inversion Hlast. now left.
  - change (last_signature (r1 :: page) = Some c) in Hlast.
    simpl in Hs. inversion Hs as [|? ? Hs' Hall]; subst.
    destruct Hin as [<-|Hin].
    + right. rewrite Forall_forall in Hall. apply Hall.
      now apply (last_signature_In (r1 :: page)).
    + now apply IH.
Qed.

Lemma record_of_addresses public_key si tx r :
  record_of public_key si tx = Ok r ->
  nth_error (account_keys tx) 0 = Some (Transaction.from_address r) /\
  nth_error (account_keys tx) 1 = Some (Transaction.to_address r).
Proof.
  unfold record_of, and_then, item.
  destruct (nth_error (instructions tx) 0); [|discriminate].
  destruct (datetime_fromtimestamp _); [|discriminate].
  destruct (nth_error (account_keys tx) 0); [|discriminate].
  destruct (nth_error (account_keys tx) 1); [|discriminate].
  intros H; inversion H; split; reflexivity.
Qed.


(** C6, as amended. Over a gateway that answers with at most [limit]
    signatures, newest first, and with signatures strictly before the cursor
    only: a page has at most [limit] records, and a later page asked for
    with the signature of this page's last record as cursor shares no
    signature with it.  (The handler neither truncates nor orders what the
    gateway answers with.) *)
Theorem get_wallet_transactions_pages :
  forall (W : Type) (older : string -> string -> Prop)
         (solders : Solders.t) (client : Client.t W)
         (public_key : string) (limit : Z) (before : option string)
         (s s' : State W) (page1 : list Transaction.t),
    StrictOrder older ->
    honours_limit client ->
    newest_first older client ->
    strictly_before older client ->
    get_wallet_transactions solders client public_key limit before s = (Ok page1, s') ->
    Z.of_nat (List.length page1) <= limit /\
    (forall (cursor : string) (limit2 : Z) (s2 s2' : State W) (page2 : list Transaction.t),
        last_signature page1 = Some cursor ->
        get_wallet_transactions solders client public_key limit2 (Some cursor) s2
          = (Ok page2, s2') ->
        no_shared_signature page1 page2).
Proof.
  intros W older solders client public_key limit before s s' page1
         Horder Hlimit Hnewest Hbefore Hrun1.
  apply get_wallet_transactions_built in Hrun1.
  destruct Hrun1 as (sigs1 & w1 & Hsigs1 & Hb1).
  split.
  - apply Hlimit in Hsigs1. apply built_from_length in Hb1. lia.
  - intros cursor limit2 s2 s2' page2 Hlast Hrun2 r1 r2 Hin1 Hin2 Heq.
    apply get_wallet_transactions_built in Hrun2.
    destruct Hrun2 as (sigs2 & w2 & Hsigs2 & Hb2).
    apply Hnewest in Hsigs1. apply Hbefore in Hsigs2.
    pose proof (built_from_sorted client public_key _ sigs1 page1 Hb1 Hsigs1) as Hsorted.
    destruct (built_from_In client public_key sigs2 page2 r2 Hb2 Hin2)
      as (si & tx & w & w' & Hsi & _ & Hr).
    rewrite Forall_forall in Hsigs2.
    assert (older (Transaction.signature r2) cursor) as Hold.
    { apply Hsigs2. rewrite (record_of_signature _ _ _ _ Hr). now apply in_map. }
    rewrite <- Heq in Hold.
    destruct (last_signature_bound _ page1 cursor Hsorted Hlast r1 Hin1) as [Hc|Hc].
    + rewrite Hc in Hold. now apply (StrictOrder_Irreflexive cursor).
    + apply (StrictOrder_Irreflexive cursor).
      now apply (StrictOrder_Transitive cursor (Transaction.signature r1) cursor).
Qed.

(** *** The static ledger meets the gateway assumptions *)

Lemma older_in_strict (h : list Entry) : StrictOrder (older_in h).
Proof.
  split.
  - intros a H. unfold older_in in H. lia.
  - intros a b c Hab Hbc. unfold older_in in *. lia.
Qed.

Lemma after_In (c : string) (h : list Entry) (z : string) :
  In z (signatures (after c h)) -> In z (signatures h).
Proof.
  induction h as [|e h IH]; simpl; auto.
  destruct (String.eqb (signature (info e)) c); simpl; auto.
Qed.

Lemma after_sorted (R : string -> string -> Prop) (c : string) (h : list Entry) :
  StronglySorted R (signatures h) -> StronglySorted R (signatures (after c h)).
Proof.
  induction h as [|e h IH]; simpl; auto.
  intros Hs. inversion Hs; subst.
  destruct (String.eqb (signature (info e)) c); auto.
Qed.

Lemma after_position (c : string) (h : list Entry) (z : string) :
  NoDup (signatures h) ->
  In z (signatures (after c h)) ->
  (position c (signatures h) < position z (signatures h))%nat.
Proof.
  induction h as [|e h IH]; simpl; [tauto|].
  intros Hnd Hin. inversion Hnd as [|? ? Hnotin Hnd']; subst.
  destruct (String.eqb (signature (info e)) c) eqn:E.
  - destruct (String.eqb (signature (info e)) z) eqn:Ez; [|lia].
    apply String.eqb_eq in Ez. subst z. contradiction.
  - apply after_In in Hin as Hin'.
    destruct (String.eqb (signature (info e)) z) eqn:Ez.
    + apply String.eqb_eq in Ez. subst z. contradiction.
    + specialize (IH Hnd' Hin). lia.
Qed.

Lemma page_signatures (h : list Entry) (limit : Z) (before : option string) :
  map signature (map info (page h limit before)) = signatures (page h limit before).
Proof. unfold signatures. now rewrite map_map. Qed.

Lemma ledger_client_honours_limit (l : Ledger) : honours_limit (ledger_client l).
Proof.
  intros address limit before w sigs w'. simpl.
  destruct ((1 <=? limit) && (limit <=? 1000)) eqn:E; [|discriminate].
  intros H; inversion H; subst. apply andb_true_iff in E. destruct E as [E1 E2].
  apply Z.leb_le in E1. rewrite length_map. unfold page.
  pose proof (firstn_le_length (Z.to_nat limit)
                (match before with Some cursor => after cursor (history l)
                                 | None => history l end)). lia.
Qed.

Lemma ledger_client_newest_first (l : Ledger) :
  NoDup (signatures (history l)) ->
  newest_first (older_in (history l)) (ledger_client l).
Proof.
  intros Hnd address limit before w sigs w'. simpl.
  destruct ((1 <=? limit) && (limit <=? 1000)); [|discriminate].
  intros H; inversion H; subst. rewrite page_signatures.
  unfold page, signatures. rewrite <- firstn_map. apply StronglySorted_firstn.
  pose proof (position_sorted _ Hnd) as Hs.
  destruct before as [cursor|]; [apply after_sorted|]; exact Hs.
Qed.

Lemma ledger_client_strictly_before (l : Ledger) :
  NoDup (signatures (history l)) ->
  strictly_before (older_in (history l)) (ledger_client l).
Proof.
  intros Hnd address limit cursor w sigs w'. simpl.
  destruct ((1 <=? limit) && (limit <=? 1000)); [|discriminate].
  intros H; inversion H; subst. rewrite page_signatures.
  apply Forall_forall. intros z Hz. unfold older_in.
  apply after_position; auto.
  unfold page, signatures in Hz. rewrite <- firstn_map in Hz.
  now apply firstn_In in Hz.
Qed.

Lemma four_transfers_NoDup : NoDup (signatures (history four_transfers)).
Proof.
  repeat constructor; simpl; intuition discriminate.
Qed.


Lemma get_wallet_transactions_pages_witness :
  Z.of_nat (List.length (records "addr1" (firstn 2 (history four_transfers)))) <= 2 /\
  (forall (cursor : string) (limit2 : Z) (s2 s2' : State unit) (page2 : list Transaction.t),
      last_signature (records "addr1" (firstn 2 (history four_transfers))) = Some cursor ->
      get_wallet_transactions plain_solders (ledger_client four_transfers)
                              "addr1" limit2 (Some cursor) s2 = (Ok page2, s2') ->
      no_shared_signature (records "addr1" (firstn 2 (history four_transfers))) page2).
Proof.
  apply (get_wallet_transactions_pages unit (older_in (history four_transfers))
           plain_solders (ledger_client four_transfers) "addr1" 2 None
           (start addr1_wallets tt)
           (snd (get_wallet_transactions plain_solders (ledger_client four_transfers)
                   "addr1" 2 None (start addr1_wallets tt)))).
  - apply older_in_strict.
  - apply ledger_client_honours_limit.
  - apply ledger_client_newest_first, four_transfers_NoDup.
  - apply ledger_client_strictly_before, four_transfers_NoDup.
  - vm_compute. reflexivity.
Defined.

Lemma unordered_client_strictly_before :
  strictly_before (older_in (history four_transfers)) unordered_client.
Proof.
  intros address limit cursor w sigs w' H.
  exact (ledger_client_strictly_before four_transfers four_transfers_NoDup
           address limit cursor w sigs w' H).
Qed.

Lemma unordered_client_honours_limit : honours_limit unordered_client.
Proof.
  intros address limit [cursor|] w sigs w' H.
  - exact (ledger_client_honours_limit four_transfers
             address limit (Some cursor) w sigs w' H).
  - cbn in H.
    destruct ((1 <=? limit) && (limit <=? 1000)) eqn:Hl; [|discriminate].
    apply andb_prop in Hl. destruct Hl as [Hl _]. apply Z.leb_le in Hl.
    inversion H; subst. rewrite length_map.
    match goal with |- Z.of_nat (List.length (firstn ?n ?l)) <= _ =>
      pose proof (firstn_le_length n l) as Hle end.
    rewrite length_firstn. lia.
Qed.

(** C6 as the specification words it does not hold.  The handler answers
    with one record for each resolvable signature of the gateway's answer:
    over a gateway that answers with four signatures when asked for two, it
    answers with four records.  And over a gateway that answers with at most
    [limit] signatures, strictly before the cursor only, but not newest
    first, the page asked for with the first page's last signature as cursor
    repeats a signature of the first page. *)
Lemma get_wallet_transactions_pages_counterexample :
  (exists page,
      fst (get_wallet_transactions plain_solders overfull_client
             "addr1" 2 None (start addr1_wallets tt)) = Ok page /\
      map Transaction.signature page = ["sig4"; "sig3"; "sig2"; "sig1"] /\
      ~ Z.of_nat (List.length page) <= 2) /\
  (honours_limit unordered_client /\
   strictly_before (older_in (history four_transfers)) unordered_client /\
   exists page1 page2,
     fst (get_wallet_transactions plain_solders unordered_client
            "addr1" 3 None (start addr1_wallets tt)) = Ok page1 /\
     map Transaction.signature page1 = ["sig1"; "sig4"; "sig3"] /\
     last_signature page1 = Some "sig3" /\
     fst (get_wallet_transactions plain_solders unordered_client
            "addr1" 3 (Some "sig3") (start addr1_wallets tt)) = Ok page2 /\
     map Transaction.signature page2 = ["sig2"; "sig1"] /\
     ~ no_shared_signature page1 page2).
Proof.
  split.
  - eexists. split; [vm_compute; reflexivity|].
    split; [reflexivity|]. simpl. lia.
  - split; [exact unordered_client_honours_limit|].
    split; [exact unordered_client_strictly_before|].
    eexists. eexists.
    split; [vm_compute; reflexivity|].
    split; [reflexivity|]. split; [reflexivity|].
    split; [vm_compute; reflexivity|].
    split; [reflexivity|].
    intros H. eapply H; [left; reflexivity | right; left; reflexivity | reflexivity].
Qed.


(** The two pages of the scenario: the second call, with the first page's
    last signature as cursor, answers with the two older transfers. *)
Example four_transfers_two_pages :
  map Transaction.signature
      (records "addr1" (firstn 2 (history four_transfers))) = ["sig4"; "sig3"] /\
  fst (get_wallet_transactions plain_solders (ledger_client four_transfers)
         "addr1" 2 (Some "sig3") (start addr1_wallets tt))
  = Ok (records "addr1" (skipn 2 (history four_transfers))) /\
  map Transaction.signature
      (records "addr1" (skipn 2 (history four_transfers))) = ["sig2"; "sig1"] /\
  map Transaction.type
      (records "addr1" (history four_transfers)) = ["receive"; "send"; "receive"; "send"] /\
  map Transaction.amount
      (records "addr1" (history four_transfers)) = [4%float; 3%float; 2%float; 1%float].
Proof. vm_compute. repeat split. Qed.

(** *** The static ledger and a limit of two *)

Lemma entry_signed_In (h : list Entry) (e : Entry) :
  NoDup (signatures h) -> In e h -> entry_signed h (signature (info e)) = Some e.
Proof.
  induction h as [|e0 h IH]; simpl; [tauto|].
  intros Hnd Hin. inversion Hnd as [|? ? Hnotin Hnd']; subst.
  destruct Hin as [->|Hin].
  - now rewrite String.eqb_refl.
  - destruct (String.eqb (signature (info e0)) (signature (info e))) eqn:E.
    + apply String.eqb_eq in E. exfalso. apply Hnotin. rewrite E.
      unfold signatures. now apply (in_map (fun e => signature (info e))).
    + now apply IH.
Qed.

Lemma ledger_loop (l : Ledger) (public_key : string) (es : list Entry) :
  (forall e, In e es -> entry_signed (history l) (signature (info e)) = Some e) ->
  (forall e, In e es -> resolvable public_key e = true \/ unresolvable e = true) ->
  forall acc s,
    fst (for_each (map info es) acc (transaction_of (ledger_client l) public_key) s)
    = Ok (acc ++ records public_key es)%list.
Proof.
  induction es as [|e es IH]; intros Hsigned Hok acc s; simpl.
  - now rewrite app_nil_r.
  - unfold bind at 1. unfold transaction_of at 1. unfold bind at 1. unfold rpc at 1.
    cbn [ledger_client Client.get_transaction].
    rewrite (Hsigned e) by now left.
    assert (forall e', In e' es ->
              entry_signed (history l) (signature (info e')) = Some e') as Hs'
        by (intros; apply Hsigned; now right).
    assert (forall e', In e' es ->
              resolvable public_key e' = true \/ unresolvable e' = true) as Hok'
        by (intros; apply Hok; now right).
    specialize (Hok e (or_introl eq_refl)). unfold resolvable, unresolvable in Hok.
    destruct (tx e) as [m|].
    + unfold bind, lift at 1.
      destruct (record_of public_key (info e) m) as [r|err];
        [|destruct Hok; discriminate].
      unfold ret at 1. rewrite (IH Hs' Hok'). now rewrite <- app_assoc.
    + unfold ret at 1. now rewrite (IH Hs' Hok').
Qed.

Lemma records_signatures (public_key : string) (es : list Entry) :
  map Transaction.signature (records public_key es)
  = signatures (filter (resolvable public_key) es).
Proof.
  induction es as [|e es IH]; simpl; auto.
  unfold resolvable at 1.
  destruct (tx e) as [m|]; auto.
  destruct (record_of public_key (info e) m) as [r|err] eqn:Hr; auto.
  simpl. now rewrite IH, (record_of_signature _ _ _ _ Hr).
Qed.

Lemma page_In (h : list Entry) (limit : Z) (before : option string) (e : Entry) :
  In e (page h limit before) -> In e h.
Proof.
  unfold page. intros H. apply firstn_In in H.
  destruct before as [cursor|]; auto.
  induction h as [|e0 h IH]; simpl in *; auto.
  destruct (String.eqb (signature (info e0)) cursor); auto.
Qed.

(** A page of the static ledger whose entries all resolve or are all plainly
    absent: the handler answers with their records. *)
Lemma ledger_client_page (solders : Solders.t) (l : Ledger) (public_key : string)
      (limit : Z) (before : option string) (s : State unit) :
  Solders.Pubkey_valid solders public_key = true ->
  PyDict.contains (wallets s) public_key = true ->
  1 <= limit <= 1000 ->
  NoDup (signatures (history l)) ->
  (forall e, In e (page (history l) limit before) ->
             resolvable public_key e = true \/ unresolvable e = true) ->
  fst (get_wallet_transactions solders (ledger_client l) public_key limit before s)
  = Ok (records public_key (page (history l) limit before)).
Proof.
  intros Hvalid Hws Hlimit Hnd Hok.
  unfold get_wallet_transactions. unfold bind at 1. unfold read_wallets.
  rewrite Hws. cbn [negb].
  unfold try_except. unfold bind at 1. unfold lift, Pubkey_from_string.
  rewrite Hvalid. unfold bind at 1. unfold rpc at 1.
  cbn [ledger_client Client.get_signatures_for_address].
  replace ((1 <=? limit) && (limit <=? 1000)) with true
    by (symmetry; apply andb_true_iff; split; apply Z.leb_le; lia).
  assert (forall e, In e (page (history l) limit before) ->
            entry_signed (history l) (signature (info e)) = Some e) as Hsigned.
  { intros e He. apply entry_signed_In; auto. eapply page_In; eauto. }
  pose proof (ledger_loop l public_key _ Hsigned Hok []) as Hloop.
  match goal with
  | |- context [for_each ?sigs ?acc ?body ?st] =>
      specialize (Hloop st); destruct (for_each sigs acc body st) as [[out|err] st']
  end; simpl in Hloop; inversion Hloop; subst. reflexivity.
Qed.

(** C9, as amended. On a static ledger whose first three signatures are two
    resolvable ones and one unresolvable one, [limit=2] answers with the
    records of the resolvable signatures among the first two, in the
    ledger's order: two records exactly when the unresolvable signature is
    the third. *)
Theorem get_wallet_transactions_limit_two :
  forall (solders : Solders.t) (l : Ledger) (ws : PyDict.t Wallet.t)
         (public_key : string) (e1 e2 e3 : Entry) (older_entries : list Entry),
    Solders.Pubkey_valid solders public_key = true ->
    PyDict.contains ws public_key = true ->
    history l = e1 :: e2 :: e3 :: older_entries ->
    NoDup (signatures (history l)) ->
    List.length (filter (resolvable public_key) [e1; e2; e3]) = 2%nat ->
    List.length (filter unresolvable [e1; e2; e3]) = 1%nat ->
    fst (get_wallet_transactions solders (ledger_client l) public_key 2 None (start ws tt))
      = Ok (records public_key [e1; e2]) /\
    map Transaction.signature (records public_key [e1; e2])
      = signatures (filter (resolvable public_key) [e1; e2]) /\
    (List.length (records public_key [e1; e2]) = 2%nat <-> unresolvable e3 = true).
Proof.
  intros solders l ws public_key e1 e2 e3 rest Hvalid Hws Hh Hnd Hres Hunres.
  assert (page (history l) 2 None = [e1; e2]) as Hpage by (now rewrite Hh).
  assert (forall e, In e [e1; e2] ->
            resolvable public_key e = true \/ unresolvable e = true) as Hok.
  { simpl in Hres, Hunres. unfold resolvable, unresolvable in *.
    intros e [<-|[<-|[]]];
      destruct (tx e1) as [m1|], (tx e2) as [m2|], (tx e3) as [m3|];
      try destruct (record_of public_key (info e1) m1);
      try destruct (record_of public_key (info e2) m2);
      try destruct (record_of public_key (info e3) m3);
      simpl in *; auto; discriminate. }
  split; [|split].
  - rewrite <- Hpage. apply ledger_client_page; auto; try lia.
    now rewrite Hpage.
  - apply records_signatures.
  - simpl in Hres, Hunres. unfold resolvable in *. unfold unresolvable in *. simpl.
    destruct (tx e1) as [m1|], (tx e2) as [m2|], (tx e3) as [m3|];
      try destruct (record_of public_key (info e1) m1);
      try destruct (record_of public_key (info e2) m2);
      try destruct (record_of public_key (info e3) m3);
      simpl in *; split; intros; try discriminate; try reflexivity.
Qed.

Lemma third_unresolvable_NoDup : NoDup (signatures (history third_unresolvable)).
Proof.
  repeat constructor; simpl; intuition discriminate.
Qed.

Lemma get_wallet_transactions_limit_two_witness :
  fst (get_wallet_transactions plain_solders (ledger_client third_unresolvable)
         "addr1" 2 None (start addr1_wallets tt))
    = Ok (records "addr1" (firstn 2 (history third_unresolvable))) /\
  map Transaction.signature (records "addr1" (firstn 2 (history third_unresolvable)))
    = signatures (filter (resolvable "addr1") (firstn 2 (history third_unresolvable))) /\
  (List.length (records "addr1" (firstn 2 (history third_unresolvable))) = 2%nat
   <-> unresolvable (signed "sig1" 1700000100 None) = true).
Proof.
  apply (get_wallet_transactions_limit_two plain_solders third_unresolvable addr1_wallets
           "addr1" _ _ _ []).
  - reflexivity.
  - reflexivity.
  - reflexivity.
  - apply third_unresolvable_NoDup.
  - reflexivity.
  - reflexivity.
Defined.

(** C9, as stated, fails: of the first three signatures the second is the
    unresolvable one, and [limit=2] answers with one record, not two. *)
Lemma get_wallet_transactions_limit_two_counterexample :
  List.length (filter (resolvable "addr1") (firstn 3 (history second_unresolvable))) = 2%nat /\
  List.length (filter unresolvable (firstn 3 (history second_unresolvable))) = 1%nat /\
  exists txs,
    fst (get_wallet_transactions plain_solders (ledger_client second_unresolvable)
           "addr1" 2 None (start addr1_wallets tt)) = Ok txs /\
    map Transaction.signature txs = ["sig3"] /\
    List.length txs <> 2%nat.
Proof.
  split; [reflexivity|split; [reflexivity|]].
  eexists. split; [vm_compute; reflexivity|]. split; [reflexivity|discriminate].
Qed.

(** ** The scenarios, run *)

Example hex_example : hex [x00; xff; x2a] = "00ff2a".
Proof. reflexivity. Qed.

Example sorted_reverse_is_stable :
  sorted_reverse snd [("a", 1); ("b", 2); ("c", 1); ("d", 2)]
  = [("b", 2); ("d", 2); ("a", 1); ("c", 1)].
Proof. reflexivity. Qed.

Example three_mints_ranking :
  fst (get_trending_tokens (ledger_client three_mints) 10 (start [] tt))
  = Ok (map (fun a => TokenX.init "Unknown" "Unknown" a (Some 0%float)) ["B"; "A"; "C"]).
Proof. vm_compute. reflexivity. Qed.

(** A negative [limit] is not rejected by the route; the slice then drops
    items from the end. *)
Example three_mints_negative_limit :
  fst (get_trending_tokens (ledger_client three_mints) (-1) (start [] tt))
  = Ok (map (fun a => TokenX.init "Unknown" "Unknown" a (Some 0%float)) ["B"; "A"]).
Proof. vm_compute. reflexivity. Qed.

Example third_unresolvable_two_records :
  map Transaction.signature
      (records "addr1" (firstn 2 (history third_unresolvable))) = ["sig3"; "sig2"].
Proof. reflexivity. Qed.

(* ================================================================== *)
(** * Further properties of the handlers *)

(** ** [bytes.hex] and [bytes.fromhex] *)

Lemma fromhex_hex_of_byte (b : byte) (rest : list ascii) :
  fromhex_chars (list_ascii_of_string (hex_of_byte b) ++ rest)%list
  = match fromhex_chars rest with
    | Ok bs => Ok (b :: bs)
    | Raise e => Raise e
    end.
Proof. destruct b; reflexivity. Qed.

Lemma list_ascii_of_string_app (s1 s2 : string) :
  list_ascii_of_string (s1 ++ s2)%string
  = (list_ascii_of_string s1 ++ list_ascii_of_string s2)%list.
Proof. induction s1 as [|c s1 IH]; simpl; [reflexivity | now rewrite IH]. Qed.

Lemma fromhex_of_hex (bs : list byte) : fromhex (hex bs) = Ok bs.
Proof.
  unfold fromhex. induction bs as [|b bs IH]; [reflexivity|].
  cbn [hex]. rewrite list_ascii_of_string_app, fromhex_hex_of_byte. now rewrite IH.
Qed.

(** X1. What [create_wallet] stores as [private_key] decodes back to the
    seed: [bytes.fromhex(seed.hex()) == seed], and the hex text has two
    characters per byte. *)
Theorem fromhex_hex :
  forall bs : list byte,
    fromhex (hex bs) = Ok bs /\
    String.length (hex bs) = (2 * List.length bs)%nat.
Proof.
  intros bs. split.
  - apply fromhex_of_hex.
  - induction bs as [|b bs IH]; [reflexivity|].
    cbn [hex]. unfold hex_of_byte. cbn [append String.length List.length].
    rewrite IH. lia.
Qed.

(** ** What a handler leaves alone *)

Section Preserves.
Context {W X : Type} (f : State W -> X).

Lemma bind_preserves {A B} (m : M W A) (k : A -> M W B) :
  (forall s, f (snd (m s)) = f s) ->
  (forall a s, f (snd (k a s)) = f s) ->
  forall s, f (snd (bind m k s)) = f s.
Proof.
  intros Hm Hk s. unfold bind. specialize (Hm s).
  destruct (m s) as [[a|e] s1]; simpl in *; [now rewrite Hk | assumption].
Qed.

Lemma try_except_preserves {A} (body : M W A) (handler : Exn -> M W A) :
  (forall s, f (snd (body s)) = f s) ->
  (forall e s, f (snd (handler e s)) = f s) ->
  forall s, f (snd (try_except body handler s)) = f s.
Proof.
  intros Hb Hh s. unfold try_except. specialize (Hb s).
  destruct (body s) as [[a|e] s1]; simpl in *; [assumption | now rewrite Hh].
Qed.

Lemma for_each_preserves {A B} (body : A -> B -> M W B) :
  (forall x acc s, f (snd (body x acc s)) = f s) ->
  forall xs acc s, f (snd (for_each xs acc body s)) = f s.
Proof.
  intros Hbody xs. induction xs as [|x xs IH]; intros acc s; simpl; [reflexivity|].
  apply bind_preserves; auto.
Qed.
End Preserves.

Lemma rpc_wallets {W A} (c : Call) (g : W -> Res A * W) (s : State W) :
  wallets (snd (rpc c g s)) = wallets s.
Proof. unfold rpc. now destruct (g (remote s)). Qed.

Lemma spl_wallets {W A} (g : W -> Res A * W) (s : State W) :
  wallets (snd (spl g s)) = wallets s.
Proof. unfold spl. now destruct (g (remote s)). Qed.

Ltac keeps_wallets :=
  repeat first
    [ reflexivity
    | apply rpc_wallets
    | apply spl_wallets
    | apply (bind_preserves wallets); [|intros ? ?]
    | apply (try_except_preserves wallets); [|intros ? ?]
    | apply (for_each_preserves wallets); intros ? ? ?
    | match goal with
      | |- context [match ?x with _ => _ end] => destruct x
      end ].

Lemma get_token_metadata_wallets {W} (client : Client.t W) (a : string) (s : State W) :
  wallets (snd (get_token_metadata client a s)) = wallets s.
Proof. revert s. unfold get_token_metadata. keeps_wallets. Qed.

Lemma scan_recent_blocks_wallets {W} (client : Client.t W) (s : State W) :
  wallets (snd (scan_recent_blocks client s)) = wallets s.
Proof.
  revert s. unfold scan_recent_blocks. apply (bind_preserves wallets).
  - intros s. apply rpc_wallets.
  - intros ps s. destruct ps; [reflexivity|].
    apply (for_each_preserves wallets). intros slot d s0. revert s0.
    unfold scan_slot. apply (bind_preserves wallets); [intros; apply rpc_wallets|].
    intros [block|] s1; [|reflexivity].
    apply (for_each_preserves wallets). intros tx d1 s2. unfold scan_transaction.
    destruct (existsb _ _); [|reflexivity].
    apply (for_each_preserves wallets). intros account d2 s3. revert s3.
    unfold scan_account. apply (bind_preserves wallets).
    + intros; apply get_token_metadata_wallets.
    + intros [info|] s4; [|reflexivity].
      destruct (PyDict.get _ account); reflexivity.
Qed.

(** X2. Only [create_wallet] writes the wallet store: whatever the client
    answers, and whether they succeed or fail, the other handlers leave
    [wallets] as it was. *)
Theorem handlers_keep_wallets :
  forall (W : Type) (solders : Solders.t) (client : Client.t W)
         (token_client : SplToken.t W) (s : State W)
         (public_key token_address : string) (limit : Z) (before : option string)
         (seed_bytes : list byte) (token_data : CustomToken.t),
    wallets (snd (get_wallets s)) = wallets s /\
    wallets (snd (get_wallet public_key s)) = wallets s /\
    wallets (snd (add_token_to_wallet solders token_client public_key token_address s))
      = wallets s /\
    wallets (snd (get_wallet_balance solders client public_key s)) = wallets s /\
    wallets (snd (get_wallet_transactions solders client public_key limit before s))
      = wallets s /\
    wallets (snd (get_trending_tokens client limit s)) = wallets s /\
    wallets (snd (create_custom_token solders client seed_bytes token_data s)) = wallets s.
Proof.
  intros. repeat apply conj.
  - reflexivity.
  - unfold get_wallet, bind, read_wallets. simpl.
    now destruct (PyDict.get (wallets s) public_key).
  - revert s. unfold add_token_to_wallet. apply (bind_preserves wallets); [reflexivity|].
    intros ws s. destruct (PyDict.get ws public_key); [|reflexivity].
    revert s. unfold lift, ret, raise. keeps_wallets.
  - revert s. unfold get_wallet_balance, lift, ret, raise. keeps_wallets.
  - revert s. unfold get_wallet_transactions. apply (bind_preserves wallets); [reflexivity|].
    intros ws s. destruct (negb _); [reflexivity|]. revert s.
    apply (try_except_preserves wallets); [|reflexivity].
    apply (bind_preserves wallets); [reflexivity|]. intros address.
    apply (bind_preserves wallets); [intros; apply rpc_wallets|]. intros sigs.
    apply (for_each_preserves wallets). intros si acc. unfold transaction_of.
    apply (bind_preserves wallets); [intros; apply rpc_wallets|].
    intros [tx|] s0; [|reflexivity]. revert s0.
    apply (bind_preserves wallets); reflexivity.
  - revert s. unfold get_trending_tokens.
    apply (try_except_preserves wallets); [|reflexivity].
    apply (bind_preserves wallets); [apply scan_recent_blocks_wallets | reflexivity].
  - revert s. unfold create_custom_token.
    apply (try_except_preserves wallets); [|reflexivity].
    apply (bind_preserves wallets); [intros; apply rpc_wallets|]. intros _.
    apply (bind_preserves wallets).
    + unfold request_airdrop. apply (try_except_preserves wallets); [|reflexivity].
      apply (bind_preserves wallets); [reflexivity|]. intros pk.
      apply (bind_preserves wallets); [intros; apply rpc_wallets|].
      intros [sig|] s0; [|reflexivity]. revert s0.
      apply (bind_preserves wallets); [intros; apply rpc_wallets | reflexivity].
    + intros sig. apply (bind_preserves wallets); [intros; apply rpc_wallets|]. intros _.
      apply (bind_preserves wallets); [intros; apply rpc_wallets|].
      intros confirmation s0. destruct (negb confirmation); [reflexivity|]. revert s0.
      apply (bind_preserves wallets); [intros; apply rpc_wallets|]. intros _.
      apply (bind_preserves wallets); [intros; apply rpc_wallets | reflexivity].
Qed.

(** ** [add_token_to_wallet] *)

(** X3. For a wallet that [create_wallet] stored from a 32-byte seed and a
    valid token address, [add_token_to_wallet] rebuilds the key pair from
    the stored hex and asks the token client for the associated account with
    that key pair as payer and the wallet's public key as owner; its answer
    is the client's, a failure of the client becoming status 500. *)
Theorem add_token_to_wallet_after_create_wallet :
  forall (W : Type) (solders : Solders.t) (token_client : SplToken.t W)
         (seed_bytes : list byte) (wallet_data : WalletCreate.t)
         (token_address : string) (s : State W),
    List.length seed_bytes = 32%nat ->
    Solders.Pubkey_valid solders token_address = true ->
    let public_key := Solders.Keypair_pubkey solders seed_bytes in
    let s' := snd (create_wallet solders seed_bytes wallet_data s) in
    let answer := SplToken.create_associated_token_account token_client
                    seed_bytes token_address TOKEN_PROGRAM_ID public_key (remote s) in
    add_token_to_wallet solders token_client public_key token_address s'
    = (match fst answer with
       | Ok account => Ok {| message := "Token added successfully";
                             associated_token_account := account |}
       | Raise e => Raise (HTTPException 500 (Str e))
       end,
       {| wallets := wallets s'; remote := snd answer; calls := calls s |}).
Proof.
  intros W solders token_client seed_bytes wallet_data token_address s Hlen Hvalid
         public_key s' answer.
  subst s'. rewrite create_wallet_run. fold public_key. cbn [snd].
  unfold add_token_to_wallet. unfold bind at 1. unfold read_wallets. cbn [wallets].
  rewrite PyDict_get_set_same. cbn [Wallet.private_key].
  unfold try_except. unfold bind at 1. unfold lift at 1.
  rewrite (fromhex_of_hex seed_bytes).
  unfold bind at 1. unfold lift at 1, Keypair_from_seed. rewrite Hlen. cbn [Nat.eqb].
  unfold bind at 1. unfold lift at 1, Pubkey_from_string. rewrite Hvalid.
  unfold bind at 1. unfold spl. cbn [remote wallets calls]. fold public_key. fold answer.
  destruct answer as [[account|e] w]; reflexivity.
Qed.

Lemma add_token_to_wallet_after_create_wallet_witness :
  add_token_to_wallet plain_solders plain_spl (hex seed_42) "mint1"
    (snd (create_wallet plain_solders seed_42 {| WalletCreate.name := "main" |}
            (start [] tt)))
  = (Ok {| message := "Token added successfully";
           associated_token_account :=
             ("ata:" ++ hex seed_42 ++ ":" ++ "mint1")%string |},
     {| wallets := wallets (snd (create_wallet plain_solders seed_42
                                   {| WalletCreate.name := "main" |} (start [] tt)));
        remote := tt; calls := [] |}).
Proof.
  apply (add_token_to_wallet_after_create_wallet unit plain_solders plain_spl seed_42
           {| WalletCreate.name := "main" |} "mint1" (start [] tt));
    reflexivity.
Defined.

(** X4. [add_token_to_wallet] turns a request down before it reaches the
    ledger: with status 404 when the wallet is unknown, and with status 500
    when the wallet is known and the token address is not a public key.  The
    state is untouched in both cases. *)
Theorem add_token_to_wallet_rejected :
  forall (W : Type) (solders : Solders.t) (token_client : SplToken.t W)
         (public_key token_address : string) (s : State W),
    (PyDict.get (wallets s) public_key = None ->
     add_token_to_wallet solders token_client public_key token_address s
     = (Raise (HTTPException 404 (Lit "Wallet not found")), s)) /\
    (PyDict.get (wallets s) public_key <> None ->
     Solders.Pubkey_valid solders token_address = false ->
     exists e,
       add_token_to_wallet solders token_client public_key token_address s
       = (Raise (HTTPException 500 (Str e)), s)).
Proof.
  intros W solders token_client public_key token_address s. split.
  - intros Hget. unfold add_token_to_wallet, bind, read_wallets. now rewrite Hget.
  - intros Hget Hinvalid. unfold add_token_to_wallet. unfold bind at 1, read_wallets.
    destruct (PyDict.get (wallets s) public_key) as [wallet|]; [|congruence].
    unfold try_except, bind, lift, raise, Pubkey_from_string. rewrite Hinvalid.
    destruct (fromhex (Wallet.private_key wallet)) as [seed|e]; [|now exists e].
    destruct (Keypair_from_seed seed) as [kp|e]; [|now exists e].
    eexists. reflexivity.
Qed.

(** ** The wallet store under [create_wallet] *)

Lemma PyDict_get_set_other {V} (d : PyDict.t V) (k k' : string) (v : V) :
  k <> k' -> PyDict.get (PyDict.set d k v) k' = PyDict.get d k'.
Proof.
  intros Hne. induction d as [|[k0 v0] d IH]; simpl.
  - apply String.eqb_neq in Hne. now rewrite Hne.
  - destruct (String.eqb k0 k) eqn:E; simpl.
    + apply String.eqb_eq in E. subst k0.
      apply String.eqb_neq in Hne. now rewrite Hne.
    + now rewrite IH.
Qed.

(** X5. [create_wallet] touches one key of the store: every other wallet is
    still there, unchanged and in its place.  A public key that is new goes
    last; one that is already stored keeps its place and gets the new name
    (the same seed drawn again). *)
Theorem create_wallet_store :
  forall (W : Type) (solders : Solders.t) (seed_bytes : list byte)
         (wallet_data : WalletCreate.t) (s : State W),
    let public_key := Solders.Keypair_pubkey solders seed_bytes in
    let s' := snd (create_wallet solders seed_bytes wallet_data s) in
    (forall other, other <> public_key ->
                   PyDict.get (wallets s') other = PyDict.get (wallets s) other) /\
    PyDict.keys (wallets s')
      = (if PyDict.contains (wallets s) public_key
         then PyDict.keys (wallets s)
         else PyDict.keys (wallets s) ++ [public_key])%list /\
    option_map Wallet.name (PyDict.get (wallets s') public_key)
      = Some (WalletCreate.name wallet_data).
Proof.
  intros. subst s'. rewrite create_wallet_run. cbn [snd wallets]. fold public_key.
  repeat apply conj.
  - intros other Hne. apply PyDict_get_set_other. congruence.
  - apply PyDict_keys_set.
  - now rewrite PyDict_get_set_same.
Qed.

(** ** [get_wallet_balance]: failures and what a success carries *)

(** X6. When the ledger answers the balance request without a value, the
    handler fails with status 500 after that one call: the token accounts
    are not requested. *)
Theorem get_wallet_balance_without_value :
  forall (W : Type) (solders : Solders.t) (client : Client.t W)
         (public_key : string) (s : State W) (w1 : W),
    Solders.Pubkey_valid solders public_key = true ->
    Client.get_balance client public_key (remote s) = (Ok None, w1) ->
    get_wallet_balance solders client public_key s
    = (Raise (HTTPException 500
                (Str (HTTPException 500 (Lit "Failed to fetch SOL balance")))),
       {| wallets := wallets s; remote := w1;
          calls := (calls s ++ [CGetBalance public_key])%list |}).
Proof.
  intros W solders client public_key s w1 Hvalid Hbal.
  unfold get_wallet_balance, try_except.
  unfold bind at 1. unfold lift at 1, Pubkey_from_string. rewrite Hvalid.
  unfold bind at 1. unfold rpc at 1. rewrite Hbal. reflexivity.
Qed.

Lemma get_wallet_balance_without_value_witness :
  get_wallet_balance plain_solders (answering_no_balance (ledger_client empty_ledger))
                     "addr1" (start [] tt)
  = (Raise (HTTPException 500
              (Str (HTTPException 500 (Lit "Failed to fetch SOL balance")))),
     {| wallets := []; remote := tt; calls := ([] ++ [CGetBalance "addr1"])%list |}).
Proof.
  apply (get_wallet_balance_without_value unit plain_solders
           (answering_no_balance (ledger_client empty_ledger)) "addr1" (start [] tt) tt);
    reflexivity.
Defined.

Lemma parse_token_accounts_keeps (accounts : list json) (acc out : list TokenBalance.t) :
  parse_token_accounts accounts acc = Ok out -> out = acc.
Proof.
  revert acc. induction accounts as [|a accounts IH]; intros acc; simpl.
  - intros H; now inversion H.
  - destruct (parse_token_account_never_succeeds a) as [e ->].
    destruct (is_KeyError_or_TypeError e); [apply IH | discriminate].
Qed.

Lemma token_balances_of_empty (token_response_data : json) (out : list TokenBalance.t) :
  token_balances_of token_response_data = Ok out -> out = [].
Proof.
  unfold token_balances_of, and_then.
  destruct (contains "result" token_response_data) as [[|]|]; try discriminate.
  - destruct (getitem token_response_data "result") as [result|]; try discriminate.
    destruct (contains "value" result) as [[|]|]; try discriminate.
    + destruct (getitem result "value") as [value|]; try discriminate.
      destruct (iterate value) as [accounts|]; try discriminate.
      apply parse_token_accounts_keeps.
    + intros H; now inversion H.
  - intros H; now inversion H.
Qed.

(** X7. Whatever the ledger answers, a successful [get_wallet_balance]
    carries no token at all and no USD value: its [sol_balance] is the
    fetched balance over 1e9, and it took exactly the two calls, balance
    first. *)
Theorem get_wallet_balance_success :
  forall (W : Type) (solders : Solders.t) (client : Client.t W)
         (public_key : string) (s s' : State W) (answer : WalletBalance.t),
    get_wallet_balance solders client public_key s = (Ok answer, s') ->
    WalletBalance.tokens answer = [] /\
    WalletBalance.usd_value answer = None /\
    (exists value w1,
        Client.get_balance client public_key (remote s) = (Ok (Some value), w1) /\
        WalletBalance.sol_balance answer = lamports_to_sol value) /\
    calls s' = (calls s ++ [CGetBalance public_key; CPost (request_data public_key)])%list.
Proof.
  intros W solders client public_key s s' answer.
  unfold get_wallet_balance, try_except.
  unfold bind at 1. unfold lift at 1, Pubkey_from_string.
  destruct (Solders.Pubkey_valid solders public_key); [|discriminate].
  unfold bind at 1. unfold rpc at 1.
  destruct (Client.get_balance client public_key (remote s)) as [[[value|]|e] w1] eqn:Hbal;
    try discriminate.
  unfold bind at 1. unfold rpc at 1. cbn [remote wallets calls].
  destruct (Client.post client (request_data public_key) w1) as [[data|e] w2];
    [|discriminate].
  unfold bind, lift, ret.
  destruct (token_balances_of data) as [out|e] eqn:Hout; [|discriminate].
  apply token_balances_of_empty in Hout. subst out.
  intros H; inversion H; subst. cbn. repeat apply conj; auto.
  - now exists value, w1.
  - now rewrite <- app_assoc.
Qed.

Lemma get_wallet_balance_success_witness :
  WalletBalance.tokens
    {| WalletBalance.sol_balance := lamports_to_sol 7;
       WalletBalance.usd_value := None; WalletBalance.tokens := [] |} = [] /\
  WalletBalance.usd_value
    {| WalletBalance.sol_balance := lamports_to_sol 7;
       WalletBalance.usd_value := None; WalletBalance.tokens := [] |} = None /\
  (exists value w1,
      Client.get_balance (ledger_client (holder "addr1" 7 malformed_accounts)) "addr1"
                         (remote (start [] tt)) = (Ok (Some value), w1) /\
      WalletBalance.sol_balance
        {| WalletBalance.sol_balance := lamports_to_sol 7;
           WalletBalance.usd_value := None; WalletBalance.tokens := [] |}
      = lamports_to_sol value) /\
  calls (snd (get_wallet_balance plain_solders
                (ledger_client (holder "addr1" 7 malformed_accounts)) "addr1"
                (start [] tt)))
  = (calls (start [] tt) ++ [CGetBalance "addr1"; CPost (request_data "addr1")])%list.
Proof.
  apply (get_wallet_balance_success unit plain_solders
           (ledger_client (holder "addr1" 7 malformed_accounts)) "addr1" (start [] tt)).
  vm_compute. reflexivity.
Defined.

(** X8. An answer to the token-accounts request that is a JSON object
    without ["result"] (a JSON-RPC error object, say), or whose ["result"]
    is an object without ["value"], is taken as "no tokens": the handler
    succeeds with the native balance. *)
Theorem get_wallet_balance_without_result :
  forall (W : Type) (solders : Solders.t) (client : Client.t W)
         (public_key : string) (s : State W) (value : Z)
         (entries : list (string * json)) (w1 w2 : W),
    Solders.Pubkey_valid solders public_key = true ->
    Client.get_balance client public_key (remote s) = (Ok (Some value), w1) ->
    Client.post client (request_data public_key) w1 = (Ok (JDict entries), w2) ->
    (PyDict.get entries "result" = None \/
     exists inner, PyDict.get entries "result" = Some (JDict inner) /\
                   PyDict.get inner "value" = None) ->
    fst (get_wallet_balance solders client public_key s)
    = Ok {| WalletBalance.sol_balance := lamports_to_sol value;
            WalletBalance.usd_value := None;
            WalletBalance.tokens := [] |}.
Proof.
  intros W solders client public_key s value entries w1 w2 Hvalid Hbal Hpost Hshape.
  rewrite (get_wallet_balance_run solders client public_key s value (JDict entries) w1 w2)
    by assumption.
  unfold token_balances_of, and_then. cbn [contains getitem]. unfold PyDict.contains.
  destruct Hshape as [Hnone|(inner & Hsome & Hvalue)].
  - now rewrite Hnone.
  - rewrite Hsome. cbn [contains]. unfold PyDict.contains. now rewrite Hvalue.
Qed.

Lemma get_wallet_balance_without_result_witness :
  fst (get_wallet_balance plain_solders (ledger_client (rpc_error_ledger "addr1" 5000000000))
                          "addr1" (start [] tt))
  = Ok {| WalletBalance.sol_balance := lamports_to_sol 5000000000;
          WalletBalance.usd_value := None;
          WalletBalance.tokens := [] |}.
Proof.
  apply (get_wallet_balance_without_result unit plain_solders
           (ledger_client (rpc_error_ledger "addr1" 5000000000)) "addr1" (start [] tt)
           5000000000
           [("jsonrpc", JStr "2.0");
            ("error", JDict [("code", JInt (-32602));
                             ("message", JStr "Invalid param: WrongSize")]);
            ("id", JInt 1)] tt tt).
  - reflexivity.
  - reflexivity.
  - reflexivity.
  - left. reflexivity.
Defined.

(** ** [get_wallet_transactions]: failures and calls *)

(** X9. The wallet check comes first: for a public key that is not in the
    store the handler answers 404 and nothing else happens, whatever the
    address, the limit, the cursor and the ledger are. *)
Theorem get_wallet_transactions_unknown_wallet :
  forall (W : Type) (solders : Solders.t) (client : Client.t W)
         (public_key : string) (limit : Z) (before : option string) (s : State W),
    PyDict.contains (wallets s) public_key = false ->
    get_wallet_transactions solders client public_key limit before s
    = (Raise (HTTPException 404 (Lit "Wallet not found")), s).
Proof.
  intros W solders client public_key limit before s Hno.
  unfold get_wallet_transactions, bind, read_wallets. now rewrite Hno.
Qed.

Lemma get_wallet_transactions_unknown_wallet_witness :
  get_wallet_transactions plain_solders (ledger_client four_transfers) "addr9" 10 None
                          (start addr1_wallets tt)
  = (Raise (HTTPException 404 (Lit "Wallet not found")), start addr1_wallets tt).
Proof.
  apply (get_wallet_transactions_unknown_wallet unit plain_solders
           (ledger_client four_transfers) "addr9" 10 None (start addr1_wallets tt)).
  reflexivity.
Defined.

Lemma for_each_transaction_of_calls {W} (client : Client.t W) (public_key : string)
      (sigs : list SignatureInfo) :
  forall acc s out s',
    for_each sigs acc (transaction_of client public_key) s = (Ok out, s') ->
    calls s' = (calls s ++ map (fun si => CGetTransaction (signature si)) sigs)%list.
Proof.
  induction sigs as [|si sigs IH]; intros acc s out s' Hrun; simpl in Hrun.
  - unfold ret in Hrun. inversion Hrun; subst. now rewrite app_nil_r.
  - unfold bind at 1 in Hrun. unfold transaction_of at 1 in Hrun.
    unfold bind at 1 in Hrun. unfold rpc at 1 in Hrun.
    destruct (Client.get_transaction client (signature si) (remote s))
      as [[[tx|]|e] w'] eqn:Htx; try discriminate.
    + unfold bind, lift at 1 in Hrun.
      destruct (record_of public_key si tx) as [r|e]; [|discriminate].
      unfold ret at 1 in Hrun. apply IH in Hrun. rewrite Hrun. cbn [calls map].
      now rewrite <- app_assoc.
    + unfold ret at 1 in Hrun. apply IH in Hrun. rewrite Hrun. cbn [calls map].
      now rewrite <- app_assoc.
Qed.

(** X10. A successful [get_wallet_transactions] made one signature request
    and then one transaction request per signature it was given, in the
    order given: resolvable or not, every signature costs a call. *)
Theorem get_wallet_transactions_calls :
  forall (W : Type) (solders : Solders.t) (client : Client.t W)
         (public_key : string) (limit : Z) (before : option string)
         (s s' : State W) (txs : list Transaction.t),
    get_wallet_transactions solders client public_key limit before s = (Ok txs, s') ->
    exists sigs w1,
      Client.get_signatures_for_address client public_key limit before (remote s)
        = (Ok sigs, w1) /\
      calls s' = (calls s
                  ++ CGetSignaturesForAddress public_key limit before
                  :: map (fun si => CGetTransaction (signature si)) sigs)%list.
Proof.
  intros W solders client public_key limit before s s' txs.
  unfold get_wallet_transactions. unfold bind at 1. unfold read_wallets.
  destruct (negb (PyDict.contains (wallets s) public_key)); [discriminate|].
  unfold try_except. unfold bind at 1. unfold lift, Pubkey_from_string.
  destruct (Solders.Pubkey_valid solders public_key); [|discriminate].
  unfold bind at 1. unfold rpc at 1.
  destruct (Client.get_signatures_for_address client public_key limit before (remote s))
    as [[sigs|e] w1] eqn:Hs; [|discriminate].
  destruct (for_each sigs [] (transaction_of client public_key) _) as [[out|e] s1] eqn:Hloop;
    [|discriminate].
  intros H; inversion H; subst.
  apply for_each_transaction_of_calls in Hloop. cbn [calls] in Hloop.
  exists sigs, w1. split; auto. rewrite Hloop. now rewrite <- app_assoc.
Qed.

Lemma get_wallet_transactions_calls_witness :
  exists sigs w1,
    Client.get_signatures_for_address (ledger_client third_unresolvable) "addr1" 3 None
                                      (remote (start addr1_wallets tt))
      = (Ok sigs, w1) /\
    calls (snd (get_wallet_transactions plain_solders (ledger_client third_unresolvable)
                  "addr1" 3 None (start addr1_wallets tt)))
    = (calls (start addr1_wallets tt)
       ++ CGetSignaturesForAddress "addr1" 3 None
       :: map (fun si => CGetTransaction (signature si)) sigs)%list.
Proof.
  apply (get_wallet_transactions_calls unit plain_solders (ledger_client third_unresolvable)
           "addr1" 3 None (start addr1_wallets tt) _
           (records "addr1" (history third_unresolvable))).
  vm_compute. reflexivity.
Defined.

Lemma ledger_loop_fails (l : Ledger) (public_key : string)
      (good : list Entry) (bad : Entry) (rest : list Entry) (m : Message) (err : Exn) :
  (forall e, In e (good ++ [bad]) ->
             entry_signed (history l) (signature (info e)) = Some e) ->
  (forall e, In e good -> resolvable public_key e = true \/ unresolvable e = true) ->
  tx bad = Some m ->
  record_of public_key (info bad) m = Raise err ->
  forall acc s,
    fst (for_each (map info (good ++ bad :: rest)) acc
           (transaction_of (ledger_client l) public_key) s)
    = Raise err.
Proof.
  intros Hsigned Hok Hbad Herr.
  induction good as [|e good IH]; intros acc s; cbn [app map for_each].
  - unfold bind at 1. unfold transaction_of at 1. unfold bind at 1. unfold rpc at 1.
    cbn [ledger_client Client.get_transaction].
    rewrite (Hsigned bad) by (now left). rewrite Hbad.
    unfold bind, lift. now rewrite Herr.
  - unfold bind at 1. unfold transaction_of at 1. unfold bind at 1. unfold rpc at 1.
    cbn [ledger_client Client.get_transaction].
    rewrite (Hsigned e) by (now left).
    assert (forall e', In e' (good ++ [bad]) ->
              entry_signed (history l) (signature (info e')) = Some e') as Hs'
        by (intros; apply Hsigned; now right).
    assert (forall e', In e' good ->
              resolvable public_key e' = true \/ unresolvable e' = true) as Hok'
        by (intros; apply Hok; now right).
    specialize (Hok e (or_introl eq_refl)). unfold resolvable, unresolvable in Hok.
    destruct (tx e) as [m0|].
    + unfold bind, lift at 1.
      destruct (record_of public_key (info e) m0) as [r|err0];
        [|destruct Hok; discriminate].
      unfold ret at 1. apply (IH Hs' Hok').
    + unfold ret at 1. apply (IH Hs' Hok').
Qed.

(** X11. One resolved transaction that is not the simple transfer the
    handler expects (no instruction, fewer than two account keys, no block
    time) fails the whole history with status 500, wherever it stands in the
    page and however many good records come before it. *)
Theorem get_wallet_transactions_one_bad_transaction :
  forall (solders : Solders.t) (l : Ledger) (public_key : string)
         (limit : Z) (before : option string) (s : State unit)
         (good : list Entry) (bad : Entry) (rest : list Entry)
         (m : Message) (err : Exn),
    Solders.Pubkey_valid solders public_key = true ->
    PyDict.contains (wallets s) public_key = true ->
    1 <= limit <= 1000 ->
    NoDup (signatures (history l)) ->
    page (history l) limit before = (good ++ bad :: rest)%list ->
    forallb (fun e => resolvable public_key e || unresolvable e) good = true ->
    tx bad = Some m ->
    record_of public_key (info bad) m = Raise err ->
    fst (get_wallet_transactions solders (ledger_client l) public_key limit before s)
    = Raise (HTTPException 500 (Str err)).
Proof.
  intros solders l public_key limit before s good bad rest m err
         Hvalid Hws Hlimit Hnd Hpage Hgood Hbad Herr.
  unfold get_wallet_transactions. unfold bind at 1. unfold read_wallets.
  rewrite Hws. cbn [negb].
  unfold try_except. unfold bind at 1. unfold lift, Pubkey_from_string.
  rewrite Hvalid. unfold bind at 1. unfold rpc at 1.
  cbn [ledger_client Client.get_signatures_for_address].
  replace ((1 <=? limit) && (limit <=? 1000)) with true
    by (symmetry; apply andb_true_iff; split; apply Z.leb_le; lia).
  rewrite Hpage.
  assert (forall e, In e (good ++ [bad]) ->
            entry_signed (history l) (signature (info e)) = Some e) as Hsigned.
  { intros e He. apply entry_signed_In; auto.
    apply (page_In _ limit before). rewrite Hpage.
    apply in_app_iff in He. apply in_app_iff.
    destruct He as [He|[<-|[]]]; [now left | right; now left]. }
  assert (forall e, In e good ->
            resolvable public_key e = true \/ unresolvable e = true) as Hok.
  { rewrite forallb_forall in Hgood. intros e He.
    apply orb_true_iff. now apply Hgood. }
  pose proof (ledger_loop_fails l public_key good bad rest m err Hsigned Hok Hbad Herr [])
    as Hloop.
  match goal with
  | |- context [for_each ?sigs ?acc ?body ?st] =>
      specialize (Hloop st); destruct (for_each sigs acc body st) as [[out|e] st']
  end; simpl in Hloop; inversion Hloop; subst. reflexivity.
Qed.

Lemma second_without_instructions_NoDup :
  NoDup (signatures (history second_without_instructions)).
Proof.
  repeat constructor; simpl; intuition discriminate.
Qed.

Lemma get_wallet_transactions_one_bad_transaction_witness :
  fst (get_wallet_transactions plain_solders (ledger_client second_without_instructions)
         "addr1" 10 None (start addr1_wallets tt))
  = Raise (HTTPException 500 (Str IndexError)).
Proof.
  apply (get_wallet_transactions_one_bad_transaction plain_solders
           second_without_instructions "addr1" 10 None (start addr1_wallets tt)
           [signed "sig3" 1700000300 (Some (transfer "addr2" "addr1" 3000000000))]
           (signed "sig2" 1700000200
                   (Some {| account_keys := ["addr1"; "addr2"];
                            instructions := [];
                            is_to_wallet := String.eqb "addr2" |}))
           [signed "sig1" 1700000100 (Some (transfer "addr1" "addr2" 1000000000))]
           {| account_keys := ["addr1"; "addr2"];
              instructions := [];
              is_to_wallet := String.eqb "addr2" |}).
  - reflexivity.
  - reflexivity.
  - lia.
  - apply second_without_instructions_NoDup.
  - reflexivity.
  - reflexivity.
  - reflexivity.
  - reflexivity.
Defined.

(** ** [get_token_metadata] *)


(** ** [get_trending_tokens]: the calls of a scan *)

(** X13. With an empty list of performance samples the handler fails with
    status 500 after that one call: no block is fetched. *)
Theorem get_trending_tokens_no_samples :
  forall (W : Type) (client : Client.t W) (limit : Z) (s : State W) (w1 : W),
    Client.get_recent_performance_samples client 5 (remote s) = (Ok [], w1) ->
    get_trending_tokens client limit s
    = (Raise (HTTPException 500
                (Str (HTTPException 500 (Lit "Failed to fetch recent blocks")))),
       {| wallets := wallets s; remote := w1;
          calls := (calls s ++ [CGetRecentPerformanceSamples 5])%list |}).
Proof.
  intros W client limit s w1 Hs.
  unfold get_trending_tokens, try_except, scan_recent_blocks.
  unfold bind at 1. unfold bind at 1. unfold rpc at 1. now rewrite Hs.
Qed.

Lemma get_trending_tokens_no_samples_witness :
  get_trending_tokens (ledger_client empty_ledger) 10 (start [] tt)
  = (Raise (HTTPException 500
              (Str (HTTPException 500 (Lit "Failed to fetch recent blocks")))),
     {| wallets := []; remote := tt;
        calls := ([] ++ [CGetRecentPerformanceSamples 5])%list |}).
Proof.
  apply (get_trending_tokens_no_samples unit (ledger_client empty_ledger) 10
           (start [] tt) tt).
  reflexivity.
Defined.

Lemma rpc_block_calls {W A} (c : Call) (g : W -> Res A * W) (s : State W) :
  is_GetBlock c = false -> block_calls (snd (rpc c g s)) = block_calls s.
Proof.
  intros Hc. unfold rpc, block_calls. destruct (g (remote s)). cbn [snd calls].
  rewrite filter_app. cbn [filter]. rewrite Hc. apply app_nil_r.
Qed.

Lemma get_token_metadata_block_calls {W} (client : Client.t W) (a : string) (s : State W) :
  block_calls (snd (get_token_metadata client a s)) = block_calls s.
Proof.
  revert s. unfold get_token_metadata.
  apply (try_except_preserves block_calls); [|reflexivity].
  apply (bind_preserves block_calls); [intros; now apply rpc_block_calls|].
  intros [account|] s; [|reflexivity]. revert s.
  apply (bind_preserves block_calls); [intros; now apply rpc_block_calls|].
  intros [info|] s; reflexivity.
Qed.

Lemma scan_slot_block_calls {W} (client : Client.t W) (slot : Z)
      (d : PyDict.t TokenEntry) (s : State W) :
  block_calls (snd (scan_slot client slot d s)) = (block_calls s ++ [CGetBlock slot])%list.
Proof.
  unfold scan_slot. unfold bind at 1. unfold rpc at 1.
  destruct (Client.get_block client slot (remote s)) as [[[block|]|e] w1].
  - match goal with
    | |- block_calls (snd (for_each ?xs ?acc ?body ?st)) = _ =>
        rewrite (for_each_preserves block_calls body) with (s := st)
    end.
    + unfold block_calls. cbn [calls]. now rewrite filter_app.
    + intros tx d1 s2. unfold scan_transaction.
      destruct (existsb _ _); [|reflexivity].
      apply (for_each_preserves block_calls). intros account d2 s3. revert s3.
      unfold scan_account. apply (bind_preserves block_calls).
      * intros; apply get_token_metadata_block_calls.
      * intros [info|] s4; [|reflexivity].
        destruct (PyDict.get _ account); reflexivity.
  - unfold ret, block_calls. cbn [snd calls]. now rewrite filter_app.
  - unfold block_calls. cbn [snd calls]. now rewrite filter_app.
Qed.

Lemma scan_slots_block_calls {W} (client : Client.t W) (slots : list Z) :
  forall (d : PyDict.t TokenEntry) (s : State W),
  exists n,
    (n <= List.length slots)%nat /\
    block_calls (snd (for_each slots d (scan_slot client) s))
      = (block_calls s ++ map CGetBlock (firstn n slots))%list /\
    (forall d', fst (for_each slots d (scan_slot client) s) = Ok d' ->
                n = List.length slots).
Proof.
  induction slots as [|slot slots IH]; intros d s.
  - exists 0%nat. cbn. repeat split; auto. now rewrite app_nil_r.
  - cbn [for_each]. unfold bind.
    pose proof (scan_slot_block_calls client slot d s) as Hstep.
    destruct (scan_slot client slot d s) as [[d1|e] s1]; cbn [snd] in Hstep.
    + destruct (IH d1 s1) as (n & Hn & Hcalls & Hok).
      exists (S n). cbn [List.length firstn map]. repeat split.
      * lia.
      * rewrite Hcalls, Hstep. now rewrite <- app_assoc.
      * intros d' Hd'. now rewrite (Hok d' Hd').
    + exists 1%nat. cbn [List.length firstn map fst snd]. repeat split.
      * lia.
      * exact Hstep.
      * intros d' Hd'. discriminate.
Qed.

(** X14. A scan fetches blocks for the first five performance samples at
    most, in the order of the samples, however many samples the ledger
    answers with; a scan that succeeds fetched one block for each of them. *)
Theorem get_trending_tokens_block_calls :
  forall (W : Type) (client : Client.t W) (limit : Z) (s : State W)
         (performance_samples : list PerfSample) (w1 : W),
    Client.get_recent_performance_samples client 5 (remote s)
      = (Ok performance_samples, w1) ->
    let run := get_trending_tokens client limit s in
    let slots := map slot (firstn 5 performance_samples) in
    exists n,
      (n <= 5)%nat /\
      block_calls (snd run) = (block_calls s ++ map CGetBlock (firstn n slots))%list /\
      (forall tokens, fst run = Ok tokens ->
                      n = Nat.min 5 (List.length performance_samples)).
Proof.
  intros W client limit s ps w1 Hs run slots. subst run.
  destruct (get_trending_tokens client limit s) as [r s'] eqn:Hrun. cbn [fst snd].
  unfold get_trending_tokens, try_except, scan_recent_blocks in Hrun.
  unfold bind at 1 in Hrun. unfold bind at 1 in Hrun. unfold rpc at 1 in Hrun.
  rewrite Hs in Hrun.
  assert (forall w : W, block_calls
                {| wallets := wallets s; remote := w;
                   calls := calls s ++ [CGetRecentPerformanceSamples 5] |}
              = block_calls s) as Hstart.
  { intros w. unfold block_calls. cbn [calls]. rewrite filter_app. cbn. apply app_nil_r. }
  destruct ps as [|p ps].
  - unfold raise in Hrun. inversion Hrun; subst.
    exists 0%nat. cbn [firstn map]. rewrite Hstart, app_nil_r.
    split; [lia | split; [reflexivity | intros tokens H; discriminate]].
  - fold slots in Hrun.
    assert (List.length slots = Nat.min 5 (List.length (p :: ps))) as Hlen.
    { unfold slots. now rewrite length_map, length_firstn. }
    match type of Hrun with
    | context [for_each slots ?d ?body ?st] =>
        destruct (scan_slots_block_calls client slots d st) as (n & Hn & Hcalls & Hok);
        destruct (for_each slots d body st) as [[d'|e] s1] eqn:Hloop
    end; cbn [fst snd] in *; rewrite Hstart in Hcalls;
      unfold ret, raise in Hrun; inversion Hrun; subst;
      exists n; (split; [lia | split; [exact Hcalls |]]).
    + intros tokens _. rewrite (Hok d' eq_refl). exact Hlen.
    + intros tokens H; discriminate.
Qed.

Lemma get_trending_tokens_block_calls_witness :
  exists n,
    (n <= 5)%nat /\
    block_calls (snd (get_trending_tokens six_samples_client 10 (start [] tt)))
    = (block_calls (start [] tt)
       ++ map CGetBlock (firstn n (map slot (firstn 5 (samples six_samples)))))%list /\
    (forall tokens,
        fst (get_trending_tokens six_samples_client 10 (start [] tt)) = Ok tokens ->
        n = Nat.min 5 (List.length (samples six_samples))).
Proof.
  apply (get_trending_tokens_block_calls unit six_samples_client 10
           (start [] tt) (samples six_samples) tt).
  reflexivity.
Defined.

Example six_samples_five_blocks :
  block_calls (snd (get_trending_tokens six_samples_client 10 (start [] tt)))
  = map CGetBlock [106; 105; 104; 103; 102].
Proof. reflexivity. Qed.

(** ** [get_trending_tokens]: what the scan's dictionary holds *)

Lemma PyDict_set_set {V} (d : PyDict.t V) (k : string) (v v' : V) :
  PyDict.set (PyDict.set d k v) k v' = PyDict.set d k v'.
Proof.
  induction d as [|[k0 v0] d IH]; simpl.
  - now rewrite String.eqb_refl.
  - destruct (String.eqb k0 k) eqn:E; simpl; rewrite E; [reflexivity | now rewrite IH].
Qed.

Lemma PyDict_get_In {V} (d : PyDict.t V) (k : string) (v : V) :
  PyDict.get d k = Some v -> In (k, v) d.
Proof.
  induction d as [|[k0 v0] d IH]; simpl; [discriminate|].
  destruct (String.eqb k0 k) eqn:E.
  - apply String.eqb_eq in E. intros H; inversion H; subst. now left.
  - intros H. right. now apply IH.
Qed.

Lemma PyDict_set_Forall {V} (P : string * V -> Prop) (d : PyDict.t V) (k : string) (v : V) :
  Forall P d -> P (k, v) -> Forall P (PyDict.set d k v).
Proof.
  intros Hd Hkv. induction d as [|[k0 v0] d IH]; simpl.
  - now constructor.
  - inversion Hd; subst. destruct (String.eqb k0 k) eqn:E.
    + apply String.eqb_eq in E. subst k0. now constructor.
    + constructor; auto.
Qed.

Lemma get_token_metadata_address {W} (client : Client.t W) (a : string)
      (s s' : State W) (md : TokenMetadata) :
  get_token_metadata client a s = (Ok (Some md), s') -> address md = a.
Proof.
  unfold get_token_metadata, try_except, bind, rpc, ret.
  destruct (Client.get_account_info client a (remote s)) as [[[account|]|e] w1];
    cbn [remote]; try discriminate.
  destruct (Client.get_mint_info client a w1) as [[[info|]|e] w2]; try discriminate.
  intros H; inversion H; reflexivity.
Qed.

Lemma scan_account_well_counted {W} (client : Client.t W) account d s d' s' :
  Forall well_counted d ->
  scan_account client account d s = (Ok d', s') ->
  Forall well_counted d'.
Proof.
  intros Hd. unfold scan_account, bind.
  destruct (get_token_metadata client account s) as [[[info|]|e] s1] eqn:Hmd;
    try discriminate.
  - apply get_token_metadata_address in Hmd.
    destruct (PyDict.contains d account) eqn:E; cbn [negb].
    + destruct (PyDict.get d account) as [entry|] eqn:Hget; unfold ret, raise;
        intros H; inversion H; subst.
      apply PyDict_get_In in Hget. rewrite Forall_forall in Hd.
      destruct (Hd _ Hget) as [Hc Ha]. cbn in Hc, Ha.
      apply PyDict_set_Forall; [now apply Forall_forall|].
      split; cbn; [lia | assumption].
    + rewrite PyDict_get_set_same. unfold ret. intros H; inversion H; subst.
      rewrite PyDict_set_set. apply PyDict_set_Forall; auto.
      split; cbn; [lia | reflexivity].
  - unfold ret. intros H; inversion H; now subst.
Qed.



Lemma insert_desc_Permutation {A} (key : A -> Z) (x : A) (l : list A) :
  Permutation (insert_desc key x l) (x :: l).
Proof.
  induction l as [|y l IH]; simpl; [reflexivity|].
  destruct (key y <=? key x); [reflexivity|].
  rewrite IH. apply perm_swap.
Qed.

Lemma sorted_reverse_Permutation {A} (key : A -> Z) (l : list A) :
  Permutation (sorted_reverse key l) l.
Proof.
  induction l as [|x l IH]; simpl; [reflexivity|].
  rewrite insert_desc_Permutation. now constructor.
Qed.

(** X16. With a limit that is not below the number of addresses the scan
    counted, the handler answers with every one of them exactly once; each
    token of the answer carries the placeholders ["Unknown"], ["Unknown"]
    and price 0.0, whatever metadata was fetched. *)
Theorem get_trending_tokens_lists_all :
  forall (W : Type) (client : Client.t W) (limit : Z) (s s' : State W)
         (token_transactions : PyDict.t TokenEntry),
    scan_recent_blocks client s = (Ok token_transactions, s') ->
    Z.of_nat (List.length token_transactions) <= limit ->
    exists tokens,
      get_trending_tokens client limit s = (Ok tokens, s') /\
      Permutation (map TokenX.address tokens) (PyDict.keys token_transactions) /\
      NoDup (map TokenX.address tokens) /\
      Forall is_placeholder tokens.
Proof.
  intros W client limit s s' d Hscan Hlimit.
  exists (map unknown_token (sorted_tokens d limit)).
  assert (sorted_tokens d limit = sorted_reverse (fun x => count (snd x)) d) as Hall.
  { unfold sorted_tokens, PyDict.items. rewrite slice_to_firstn by lia.
    apply firstn_all2. rewrite sorted_reverse_length. lia. }
  assert (map TokenX.address (map unknown_token (sorted_tokens d limit))
          = map fst (sorted_reverse (fun x => count (snd x)) d)) as Haddr.
  { rewrite Hall, map_map. apply map_ext. now intros [k e]. }
  assert (Permutation (map fst (sorted_reverse (fun x => count (snd x)) d))
                      (PyDict.keys d)) as Hperm.
  { unfold PyDict.keys. apply Permutation_map, sorted_reverse_Permutation. }
  repeat apply conj.
  - unfold get_trending_tokens, try_except, bind. now rewrite Hscan.
  - now rewrite Haddr.
  - rewrite Haddr. apply (Permutation_NoDup (Permutation_sym Hperm)).
    eapply scan_recent_blocks_NoDup; eauto.
  - apply Forall_forall. intros t Ht. apply in_map_iff in Ht.
    destruct Ht as ([k e] & <- & _). repeat split.
Qed.

Lemma get_trending_tokens_lists_all_witness :
  exists tokens,
    get_trending_tokens (ledger_client three_mints) 3 (start [] tt)
      = (Ok tokens, snd (scan_recent_blocks (ledger_client three_mints) (start [] tt))) /\
    Permutation (map TokenX.address tokens) (PyDict.keys three_mints_scan) /\
    NoDup (map TokenX.address tokens) /\
    Forall is_placeholder tokens.
Proof.
  apply (get_trending_tokens_lists_all unit (ledger_client three_mints) 3 (start [] tt)
           (snd (scan_recent_blocks (ledger_client three_mints) (start [] tt)))
           three_mints_scan).
  - vm_compute. reflexivity.
  - cbn. lia.
Defined.

Lemma for_each_unchanged {W A B} (body : A -> B -> M W B) (xs : list A) :
  (forall x acc s, In x xs -> body x acc s = (Ok acc, s)) ->
  forall acc s, for_each xs acc body s = (Ok acc, s).
Proof.
  induction xs as [|x xs IH]; intros Hbody acc s; simpl; [reflexivity|].
  unfold bind. rewrite Hbody by now left.
  apply IH. intros; apply Hbody; now right.
Qed.

(** X17. A block none of whose transactions references the token program
    costs its own fetch and nothing more: no account of it is looked up and
    the dictionary stays as it was. *)
Theorem scan_slot_without_token_program :
  forall (W : Type) (client : Client.t W) (slot : Z) (block : Block)
         (token_transactions : PyDict.t TokenEntry) (s : State W) (w1 : W),
    Client.get_block client slot (remote s) = (Ok (Some block), w1) ->
    forallb (fun tx => negb (references_token_program tx)) (transactions block) = true ->
    scan_slot client slot token_transactions s
    = (Ok token_transactions,
       {| wallets := wallets s; remote := w1;
          calls := (calls s ++ [CGetBlock slot])%list |}).
Proof.
  intros W client slot block d s w1 Hblock Hnone.
  unfold scan_slot. unfold bind at 1. unfold rpc at 1. rewrite Hblock.
  apply for_each_unchanged. intros tx acc s0 Hin.
  rewrite forallb_forall in Hnone. specialize (Hnone tx Hin).
  unfold references_token_program in Hnone. unfold scan_transaction.
  apply negb_true_iff in Hnone. now rewrite Hnone.
Qed.

Lemma scan_slot_without_token_program_witness :
  scan_slot (ledger_client plain_block) 9 PyDict.empty (start [] tt)
  = (Ok PyDict.empty,
     {| wallets := []; remote := tt; calls := ([] ++ [CGetBlock 9])%list |}).
Proof.
  apply (scan_slot_without_token_program unit (ledger_client plain_block) 9
           {| transactions := [ transfer "A" "B" 5; transfer "B" "C" 7 ] |}
           PyDict.empty (start [] tt) tt); reflexivity.
Defined.

(** ** [request_airdrop] and [create_custom_token] *)

Lemma request_airdrop_run {W} (solders : Solders.t) (client : Client.t W)
      (wallet_address : string) (lamports : Z) (s : State W)
      (sig : string) (confirmation : bool) (w1 w2 : W) :
  Solders.Pubkey_valid solders wallet_address = true ->
  Client.request_airdrop client wallet_address lamports (remote s) = (Ok (Some sig), w1) ->
  Client.confirm_transaction client sig w1 = (Ok confirmation, w2) ->
  request_airdrop solders client wallet_address lamports s
  = (Ok sig,
     {| wallets := wallets s; remote := w2;
        calls := (calls s ++ [CRequestAirdrop wallet_address lamports;
                              CConfirmTransaction sig])%list |}).
Proof.
  intros Hvalid Hreq Hconf.
  unfold request_airdrop, try_except.
  unfold bind at 1. unfold lift, Pubkey_from_string. rewrite Hvalid.
  unfold bind at 1. unfold rpc at 1. rewrite Hreq.
  unfold bind at 1. unfold rpc at 1. cbn [remote wallets calls]. rewrite Hconf.
  unfold ret. now rewrite <- app_assoc.
Qed.

(** X18. [request_airdrop] returns the signature the faucet answered with
    once [confirm_transaction] has returned, whatever it returned: a false
    confirmation does not fail the request. *)
Theorem request_airdrop_returns_signature :
  forall (W : Type) (solders : Solders.t) (client : Client.t W)
         (wallet_address : string) (lamports : Z) (s : State W)
         (sig : string) (confirmation : bool) (w1 w2 : W),
    Solders.Pubkey_valid solders wallet_address = true ->
    Client.request_airdrop client wallet_address lamports (remote s) = (Ok (Some sig), w1) ->
    Client.confirm_transaction client sig w1 = (Ok confirmation, w2) ->
    request_airdrop solders client wallet_address lamports s
    = (Ok sig,
       {| wallets := wallets s; remote := w2;
          calls := (calls s ++ [CRequestAirdrop wallet_address lamports;
                                CConfirmTransaction sig])%list |}).
Proof.
  intros W solders client a lamports s sig c w1 w2 Hvalid Hreq Hconf.
  now apply (request_airdrop_run solders client a lamports s sig c w1 w2).
Qed.

Lemma request_airdrop_returns_signature_witness :
  request_airdrop plain_solders (answering_unconfirmed (ledger_client funded_faucet))
                  "addr1" 1000000000 (start [] tt)
  = (Ok "airdrop1",
     {| wallets := []; remote := tt;
        calls := ([] ++ [CRequestAirdrop "addr1" 1000000000;
                         CConfirmTransaction "airdrop1"])%list |}).
Proof.
  apply (request_airdrop_returns_signature unit plain_solders
           (answering_unconfirmed (ledger_client funded_faucet))
           "addr1" 1000000000 (start [] tt) "airdrop1" false tt tt); reflexivity.
Defined.

(** The provisioning flow once the airdrop was requested and answered. *)
Lemma create_custom_token_after_airdrop {W} (solders : Solders.t) (client : Client.t W)
      (seed_bytes : list byte) (token_data : CustomToken.t) (s : State W)
      (balance : option Z) (sig : string) (c1 : bool) (w1 w2 w3 : W) :
  let mint_authority := Solders.Keypair_pubkey solders seed_bytes in
  Solders.Pubkey_valid solders mint_authority = true ->
  Client.get_balance client mint_authority (remote s) = (Ok balance, w1) ->
  Client.request_airdrop client mint_authority 1000000000 w1 = (Ok (Some sig), w2) ->
  Client.confirm_transaction client sig w2 = (Ok c1, w3) ->
  create_custom_token solders client seed_bytes token_data s
  = try_except
      (confirmation <- rpc (CConfirmTransaction sig)
                           (Client.confirm_transaction client sig) ;;
       if negb confirmation
       then raise (HTTPException 500 (Lit "Failed to confirm airdrop transaction"))
       else
         rpc (CGetBalance mint_authority) (Client.get_balance client mint_authority) ;;;
         token <- rpc (CCreateMint mint_authority mint_authority
                                   (CustomToken.decimals token_data) TOKEN_PROGRAM_ID)
                      (Client.create_mint client mint_authority mint_authority
                                   (CustomToken.decimals token_data) TOKEN_PROGRAM_ID) ;;
         ret (TokenX.init (CustomToken.symbol token_data) (CustomToken.name token_data)
                          token None))
      (fun e => raise (HTTPException 500 (Str e)))
      {| wallets := wallets s; remote := w3;
         calls := (calls s ++ [CGetBalance mint_authority;
                               CRequestAirdrop mint_authority 1000000000;
                               CConfirmTransaction sig;
                               CSleep 30])%list |}.
Proof.
  intros pk Hvalid Hbal Hreq Hconf.
  unfold create_custom_token. fold pk. unfold try_except at 1 2.
  unfold bind at 1. unfold rpc at 1. rewrite Hbal.
  unfold bind at 1.
  rewrite (request_airdrop_run solders client pk 1000000000 _ sig c1 w2 w3);
    cbn [remote wallets calls]; auto.
  unfold bind at 1. unfold rpc at 1. cbn [remote wallets calls fst snd].
  repeat rewrite <- app_assoc. reflexivity.
Qed.

(** X19. The complete provisioning flow: balance read, airdrop request and
    its confirmation, the 30-second wait, a second confirmation that must be
    true, a second balance read, and the mint.  The token answered carries
    the requested symbol and name, the address of the new mint and no
    price; neither balance read nor the first confirmation decides
    anything, and [total_supply] is not used. *)
Theorem create_custom_token_success :
  forall (W : Type) (solders : Solders.t) (client : Client.t W)
         (seed_bytes : list byte) (token_data : CustomToken.t) (s : State W)
         (balance_before balance_after : option Z) (sig mint : string) (c1 : bool)
         (w1 w2 w3 w4 w5 w6 : W),
    let mint_authority := Solders.Keypair_pubkey solders seed_bytes in
    Solders.Pubkey_valid solders mint_authority = true ->
    Client.get_balance client mint_authority (remote s) = (Ok balance_before, w1) ->
    Client.request_airdrop client mint_authority 1000000000 w1 = (Ok (Some sig), w2) ->
    Client.confirm_transaction client sig w2 = (Ok c1, w3) ->
    Client.confirm_transaction client sig w3 = (Ok true, w4) ->
    Client.get_balance client mint_authority w4 = (Ok balance_after, w5) ->
    Client.create_mint client mint_authority mint_authority
                       (CustomToken.decimals token_data) TOKEN_PROGRAM_ID w5
      = (Ok mint, w6) ->
    create_custom_token solders client seed_bytes token_data s
    = (Ok {| TokenX.symbol := CustomToken.symbol token_data;
             TokenX.name := CustomToken.name token_data;
             TokenX.address := mint;
             TokenX.price := None |},
       {| wallets := wallets s; remote := w6;
          calls := (calls s ++ provisioning_calls mint_authority sig
                                 (CustomToken.decimals token_data))%list |}).
Proof.
  intros W solders client seed_bytes token_data s b0 b1 sig mint c1 w1 w2 w3 w4 w5 w6
         pk Hvalid Hbal Hreq Hc1 Hc2 Hbal2 Hmint.
  rewrite (create_custom_token_after_airdrop solders client seed_bytes token_data s
             b0 sig c1 w1 w2 w3); auto.
  fold pk. unfold try_except.
  unfold bind at 1. unfold rpc at 1. cbn [remote wallets calls]. rewrite Hc2. cbn [negb].
  unfold bind at 1. unfold rpc at 1. cbn [remote wallets calls]. rewrite Hbal2.
  unfold bind at 1. unfold rpc at 1. cbn [remote wallets calls]. rewrite Hmint.
  unfold ret, TokenX.init, provisioning_calls. repeat rewrite <- app_assoc. reflexivity.
Qed.

Lemma create_custom_token_success_witness :
  create_custom_token plain_solders (ledger_client funded_faucet) seed_42 demo_token
                      (start [] tt)
  = (Ok {| TokenX.symbol := "DMO"; TokenX.name := "Demo";
           TokenX.address := ("mint-of-" ++ hex seed_42)%string;
           TokenX.price := None |},
     {| wallets := []; remote := tt;
        calls := ([] ++ provisioning_calls (hex seed_42) "airdrop1" 9)%list |}).
Proof.
  apply (create_custom_token_success unit plain_solders (ledger_client funded_faucet)
           seed_42 demo_token (start [] tt) (Some 0) (Some 0) "airdrop1"
           ("mint-of-" ++ hex seed_42)%string true tt tt tt tt tt tt); reflexivity.
Defined.

(** X20. When the confirmation after the wait is false, the flow fails with
    status 500 after five calls: the balance is not read again and no mint
    is created. *)
Theorem create_custom_token_unconfirmed :
  forall (W : Type) (solders : Solders.t) (client : Client.t W)
         (seed_bytes : list byte) (token_data : CustomToken.t) (s : State W)
         (balance_before : option Z) (sig : string) (c1 : bool) (w1 w2 w3 w4 : W),
    let mint_authority := Solders.Keypair_pubkey solders seed_bytes in
    Solders.Pubkey_valid solders mint_authority = true ->
    Client.get_balance client mint_authority (remote s) = (Ok balance_before, w1) ->
    Client.request_airdrop client mint_authority 1000000000 w1 = (Ok (Some sig), w2) ->
    Client.confirm_transaction client sig w2 = (Ok c1, w3) ->
    Client.confirm_transaction client sig w3 = (Ok false, w4) ->
    create_custom_token solders client seed_bytes token_data s
    = (Raise (HTTPException 500
                (Str (HTTPException 500 (Lit "Failed to confirm airdrop transaction")))),
       {| wallets := wallets s; remote := w4;
          calls := (calls s ++ firstn 5 (provisioning_calls mint_authority sig
                                           (CustomToken.decimals token_data)))%list |}).
Proof.
  intros W solders client seed_bytes token_data s b0 sig c1 w1 w2 w3 w4
         pk Hvalid Hbal Hreq Hc1 Hc2.
  rewrite (create_custom_token_after_airdrop solders client seed_bytes token_data s
             b0 sig c1 w1 w2 w3); auto.
  fold pk. unfold try_except.
  unfold bind at 1. unfold rpc at 1. cbn [remote wallets calls]. rewrite Hc2. cbn [negb].
  unfold raise, provisioning_calls. cbn [firstn]. repeat rewrite <- app_assoc. reflexivity.
Qed.

Lemma create_custom_token_unconfirmed_witness :
  create_custom_token plain_solders (answering_unconfirmed (ledger_client funded_faucet))
                      seed_42 demo_token (start [] tt)
  = (Raise (HTTPException 500
              (Str (HTTPException 500 (Lit "Failed to confirm airdrop transaction")))),
     {| wallets := []; remote := tt;
        calls := ([] ++ firstn 5 (provisioning_calls (hex seed_42) "airdrop1" 9))%list |}).
Proof.
  apply (create_custom_token_unconfirmed unit plain_solders
           (answering_unconfirmed (ledger_client funded_faucet))
           seed_42 demo_token (start [] tt) (Some 0) "airdrop1" false tt tt tt tt);
    reflexivity.
Defined.

(** X21. Whatever the client answers or raises, the calls of one
    [create_custom_token] are a prefix of the complete flow: no step is
    skipped or taken out of order, so a mint is only ever created as the
    seventh call, after the airdrop, both confirmations and the wait; a
    success made all seven. *)
Theorem create_custom_token_calls :
  forall (W : Type) (solders : Solders.t) (client : Client.t W)
         (seed_bytes : list byte) (token_data : CustomToken.t) (s : State W),
    let mint_authority := Solders.Keypair_pubkey solders seed_bytes in
    let run := create_custom_token solders client seed_bytes token_data s in
    exists made sig,
      calls (snd run) = (calls s ++ made)%list /\
      prefix_of made (provisioning_calls mint_authority sig
                        (CustomToken.decimals token_data)) /\
      (forall token, fst run = Ok token ->
                     made = provisioning_calls mint_authority sig
                              (CustomToken.decimals token_data)).
Proof.
  intros W solders client seed_bytes token_data s pk run. subst run.
  destruct (create_custom_token solders client seed_bytes token_data s) as [r s'] eqn:Hrun.
  cbn [fst snd].
  unfold create_custom_token, request_airdrop, try_except, bind, rpc, lift, ret, raise,
         Pubkey_from_string in Hrun.
  fold pk in Hrun.
  repeat (match type of Hrun with
          | context [Client.get_balance client ?a ?w] =>
              destruct (Client.get_balance client a w) as [[?|?] ?]
          | context [Client.request_airdrop client ?a ?n ?w] =>
              destruct (Client.request_airdrop client a n w) as [[[?|]|?] ?]
          | context [Client.confirm_transaction client ?a ?w] =>
              destruct (Client.confirm_transaction client a w) as [[[|]|?] ?]
          | context [Client.create_mint client ?a ?b ?c ?d ?w] =>
              destruct (Client.create_mint client a b c d w) as [[?|?] ?]
          | context [Solders.Pubkey_valid solders ?a] =>
              destruct (Solders.Pubkey_valid solders a)
          end; cbn [remote wallets calls negb] in Hrun);
    inversion Hrun; subst; cbn [calls];
    repeat rewrite <- app_assoc; cbn [app];
    eexists; eexists;
    (split; [reflexivity|]);
    (split; [unfold prefix_of, provisioning_calls; eexists; cbn [app]; reflexivity|]);
    intros token Htoken; try discriminate; reflexivity.
  Unshelve. all: exact EmptyString.
Qed.

(** ** What the handlers raise *)

Lemma try_except_only_http {W A} (body : M W A) (detail : Exn -> Detail)
      (codes : list Z) (s : State W) :
  In 500 codes ->
  only_http codes
    (fst (try_except body (fun e => raise (HTTPException 500 (detail e))) s)).
Proof.
  intros Hin. unfold try_except, raise. destruct (body s) as [[a|e] s1]; simpl; auto.
Qed.


(** ** [format_address] *)

Lemma string_of_list_ascii_app (l1 l2 : list ascii) :
  string_of_list_ascii (l1 ++ l2)
  = (string_of_list_ascii l1 ++ string_of_list_ascii l2)%string.
Proof. induction l1 as [|c l1 IH]; simpl; [reflexivity | now rewrite IH]. Qed.

Lemma string_of_list_ascii_length (l : list ascii) :
  String.length (string_of_list_ascii l) = List.length l.
Proof. induction l as [|c l IH]; simpl; [reflexivity | now rewrite IH]. Qed.

Lemma list_ascii_of_string_length (s : string) :
  List.length (list_ascii_of_string s) = String.length s.
Proof. induction s as [|c s IH]; simpl; [reflexivity | now rewrite IH]. Qed.

Lemma string_length_append (s1 s2 : string) :
  String.length (s1 ++ s2)%string = (String.length s1 + String.length s2)%nat.
Proof. induction s1 as [|c s1 IH]; simpl; [reflexivity | now rewrite IH]. Qed.

(** X23. An address longer than twice [length] (with [length] positive) is
    shown as its first [length] characters, three dots and its last
    [length] characters, [2 * length + 3] characters in all; what is left
    out is the middle. *)
Theorem format_address_long :
  forall (address : string) (length : Z),
    0 < length ->
    length * 2 < Z.of_nat (String.length address) ->
    exists first middle last : string,
      address = (first ++ middle ++ last)%string /\
      Z.of_nat (String.length first) = length /\
      Z.of_nat (String.length last) = length /\
      format_address address length = (first ++ "..." ++ last)%string /\
      Z.of_nat (String.length (format_address address length)) = 2 * length + 3.
Proof.
  intros address length Hpos Hlong.
  set (l := list_ascii_of_string address).
  set (n := Z.to_nat length).
  assert (List.length l = String.length address) as Hl
      by apply list_ascii_of_string_length.
  assert (2 * n < List.length l)%nat as Hn by lia.
  exists (string_of_list_ascii (firstn n l)),
         (string_of_list_ascii (firstn (List.length l - 2 * n) (skipn n l))),
         (string_of_list_ascii (skipn (List.length l - n) l)).
  assert (format_address address length
          = (string_of_list_ascii (firstn n l) ++ "..."
             ++ string_of_list_ascii (skipn (List.length l - n) l))%string) as Hfmt.
  { unfold format_address.
    replace (Z.of_nat (String.length address) <=? length * 2) with false
      by (symmetry; apply Z.leb_gt; lia).
    fold l. unfold slice_to, slice_from.
    replace (0 <=? length) with true by (symmetry; apply Z.leb_le; lia).
    replace (0 <=? - length) with false by (symmetry; apply Z.leb_gt; lia).
    fold n. repeat f_equal. lia. }
  repeat apply conj.
  - rewrite <- !string_of_list_ascii_app.
    replace (firstn n l ++ firstn (List.length l - 2 * n) (skipn n l)
             ++ skipn (List.length l - n) l)%list with l.
    + unfold l. now rewrite string_of_list_ascii_of_string.
    + replace (skipn (List.length l - n) l)
        with (skipn (List.length l - 2 * n) (skipn n l))
        by (rewrite skipn_skipn; f_equal; lia).
      now rewrite !firstn_skipn.
  - rewrite string_of_list_ascii_length, length_firstn. lia.
  - rewrite string_of_list_ascii_length, length_skipn. lia.
  - exact Hfmt.
  - rewrite Hfmt. rewrite !string_length_append.
    rewrite !string_of_list_ascii_length, length_firstn, length_skipn.
    cbn [String.length]. lia.
Qed.

Lemma format_address_long_witness :
  exists first middle last : string,
    "7xKXtg2CW87d97TXJSDpbD5jBkheTqA83TZRuJosgAsU" = (first ++ middle ++ last)%string /\
    Z.of_nat (String.length first) = 8 /\
    Z.of_nat (String.length last) = 8 /\
    format_address "7xKXtg2CW87d97TXJSDpbD5jBkheTqA83TZRuJosgAsU" 8
      = (first ++ "..." ++ last)%string /\
    Z.of_nat (String.length (format_address "7xKXtg2CW87d97TXJSDpbD5jBkheTqA83TZRuJosgAsU" 8))
      = 2 * 8 + 3.
Proof.
  apply (format_address_long "7xKXtg2CW87d97TXJSDpbD5jBkheTqA83TZRuJosgAsU" 8).
  - lia.
  - cbn. lia.
Defined.

(** The default length on a public key and on short texts; with a length
    of zero the slice [address[-0:]] is the whole address. *)
Example format_address_examples :
  format_address "7xKXtg2CW87d97TXJSDpbD5jBkheTqA83TZRuJosgAsU" 8 = "7xKXtg2C...uJosgAsU" /\
  format_address "0123456789abcdef" 8 = "0123456789abcdef" /\
  format_address "0123456789abcdefg" 8 = "01234567...9abcdefg" /\
  format_address "abc" 0 = "...abc".
Proof. repeat split. Qed.

(** ** [get_trending_tokens]: the lookups of one transaction *)

Lemma scan_account_lookups {W} (client : Client.t W) (account : string)
      (d : PyDict.t TokenEntry) (s : State W) :
  (exists d', fst (scan_account client account d s) = Ok d') /\
  account_lookups (snd (scan_account client account d s))
  = (account_lookups s ++ [CGetAccountInfo account])%list.
Proof.
  unfold scan_account. unfold bind at 1 2.
  destruct (get_token_metadata client account s) as [r s1] eqn:Hmd.
  assert (account_lookups s1 = (account_lookups s ++ [CGetAccountInfo account])%list
          /\ exists result, r = Ok result) as [Hcalls [result ->]].
  { unfold get_token_metadata, try_except, bind, rpc, ret in Hmd.
    destruct (Client.get_account_info client account (remote s)) as [[[acc|]|e] w1];
      cbn [remote wallets calls] in Hmd.
    - destruct (Client.get_mint_info client account w1) as [[[info|]|e] w2];
        inversion Hmd; subst; unfold account_lookups; cbn [calls];
        rewrite !filter_app; cbn; rewrite app_nil_r; eauto.
    - inversion Hmd; subst. unfold account_lookups. cbn [calls].
      rewrite filter_app. cbn. eauto.
    - inversion Hmd; subst. unfold account_lookups. cbn [calls].
      rewrite filter_app. cbn. eauto. }
  destruct result as [info|]; [|split; [now exists d | exact Hcalls]].
  destruct (PyDict.contains d account) eqn:E; cbn [negb].
  - unfold PyDict.contains in E.
    destruct (PyDict.get d account) as [entry|]; [|discriminate].
    split; [eexists; reflexivity | exact Hcalls].
  - rewrite PyDict_get_set_same. split; [eexists; reflexivity | exact Hcalls].
Qed.

(** X24. A transaction that references the token program never fails the
    scan, and it costs one account lookup for every one of its account keys,
    in order: the token program's own address and addresses already counted
    are looked up again each time. *)
Theorem scan_transaction_lookups :
  forall (W : Type) (client : Client.t W) (tx : Message)
         (token_transactions : PyDict.t TokenEntry) (s : State W),
    references_token_program tx = true ->
    let run := scan_transaction client tx token_transactions s in
    (exists d', fst run = Ok d') /\
    account_lookups (snd run)
    = (account_lookups s ++ map CGetAccountInfo (account_keys tx))%list.
Proof.
  intros W client tx d s Href run. subst run.
  unfold scan_transaction. unfold references_token_program in Href. rewrite Href.
  generalize (account_keys tx) as keys. intros keys. revert d s.
  induction keys as [|k keys IH]; intros d s.
  - cbn. split; [now exists d | now rewrite app_nil_r].
  - cbn [for_each map]. unfold bind.
    destruct (scan_account_lookups client k d s) as [[d1 Hok] Hcalls].
    destruct (scan_account client k d s) as [[d1'|e] s1]; cbn [fst snd] in *;
      [|discriminate].
    destruct (IH d1' s1) as [Hok' Hcalls'].
    split; [exact Hok'|]. rewrite Hcalls', Hcalls. now rewrite <- app_assoc.
Qed.

Lemma scan_transaction_lookups_witness :
  (exists d', fst (scan_transaction (ledger_client three_mints)
                     (token_tx ["A"; "B"; "A"]) PyDict.empty (start [] tt)) = Ok d') /\
  account_lookups (snd (scan_transaction (ledger_client three_mints)
                          (token_tx ["A"; "B"; "A"]) PyDict.empty (start [] tt)))
  = (account_lookups (start [] tt)
     ++ map CGetAccountInfo (account_keys (token_tx ["A"; "B"; "A"])))%list.
Proof.
  apply (scan_transaction_lookups unit (ledger_client three_mints)
           (token_tx ["A"; "B"; "A"]) PyDict.empty (start [] tt)).
  reflexivity.
Defined.

(** ** [get_wallet_balance]: when it succeeds *)

Lemma parse_token_accounts_succeeds (accounts : list json) (acc : list TokenBalance.t) :
  (exists out, parse_token_accounts accounts acc = Ok out)
  <-> forallb malformed accounts = true.
Proof.
  revert acc. induction accounts as [|a accounts IH]; intros acc; cbn [parse_token_accounts forallb].
  - split; [reflexivity | intros _; now exists acc].
  - unfold malformed at 1.
    destruct (parse_token_account_never_succeeds a) as [e ->].
    destruct (is_KeyError_or_TypeError e); cbn [andb].
    + apply IH.
    + split; [intros [out H]; discriminate | discriminate].
Qed.

(** X25. Given a defined balance and an answer that carries a list of token
    accounts under ["result"]["value"], [get_wallet_balance] succeeds exactly
    when every entry of the list is malformed (reading it raises [KeyError]
    or [TypeError]); one entry that reads through makes it fail. *)
Theorem get_wallet_balance_succeeds_iff :
  forall (W : Type) (solders : Solders.t) (client : Client.t W)
         (public_key : string) (s : State W) (value : Z)
         (token_response_data result : json) (accounts : list json) (w1 w2 : W),
    Solders.Pubkey_valid solders public_key = true ->
    Client.get_balance client public_key (remote s) = (Ok (Some value), w1) ->
    Client.post client (request_data public_key) w1 = (Ok token_response_data, w2) ->
    getitem token_response_data "result" = Ok result ->
    getitem result "value" = Ok (JList accounts) ->
    ((exists answer, fst (get_wallet_balance solders client public_key s) = Ok answer)
     <-> forallb malformed accounts = true).
Proof.
  intros W solders client public_key s value data result accounts w1 w2
         Hvalid Hbal Hpost Hr Hv.
  rewrite (get_wallet_balance_run solders client public_key s value data w1 w2)
    by assumption.
  rewrite (token_balances_of_value _ _ accounts Hr Hv).
  rewrite <- (parse_token_accounts_succeeds accounts []).
  destruct (parse_token_accounts accounts []) as [out|e].
  - split; intros _; eexists; reflexivity.
  - split; intros [x H]; discriminate.
Qed.

Lemma get_wallet_balance_succeeds_iff_witness :
  (exists answer,
      fst (get_wallet_balance plain_solders
             (ledger_client (holder "addr1" 7 malformed_accounts)) "addr1" (start [] tt))
      = Ok answer)
  <-> forallb malformed malformed_accounts = true.
Proof.
  apply (get_wallet_balance_succeeds_iff unit plain_solders
           (ledger_client (holder "addr1" 7 malformed_accounts)) "addr1" (start [] tt) 7
           (token_accounts (holder "addr1" 7 malformed_accounts))
           (accounts_result malformed_accounts) malformed_accounts tt tt);
    reflexivity.
Defined.

Example malformed_accounts_are_malformed :
  forallb malformed malformed_accounts = true /\
  malformed (token_account "M" (JFloat 1.5%float)) = false /\
  malformed (token_account "M" JNull) = false.
Proof. repeat split. Qed.
